(** * zmq.rpc.simplerpc: a shallow embedding of the RPC service and its proxies

    The development follows [src/zmq/rpc/simplerpc.py]:
    - [RPCBase], the state shared by the service and the proxies;
    - [Service], the ROUTER side ([RPCService._handle_request],
      [RPCService._send_error]);
    - [AsyncProxy] and [SyncProxy], the DEALER side
      ([AsyncRPCServiceProxy], [RPCServiceProxy]);
    - [SimpleCodec] and [Echo], a concrete serializer pair and the
      [Echo] service of the module docstring, used to run the model.

    Python objects that travel through the codec are values of [pyobj];
    the socket is a log of [send] operations; an instance is a record that
    is threaded through a state-and-exception monad. *)

From Stdlib Require Import String Ascii ZArith List Lia.
From stdpp Require Import base gmap strings list.
Import ListNotations.
Open Scope string_scope.
Open Scope list_scope.

(** ** Python values *)

(** Objects handed to the serializer: the argument tuple, the keyword
    dictionary and the results of methods. A Python 2 [str] is a byte
    string, here [string]. *)
#[local] Unset Elimination Schemes.
Inductive pyobj : Type :=
| PyNone
| PyBool (b : bool)
| PyInt (z : Z)
| PyStr (s : string)
| PyTuple (items : list pyobj)
| PyDict (items : list (string * pyobj)).
#[local] Set Elimination Schemes.

(** Induction over [pyobj], through the items of tuples and dictionaries. *)
Fixpoint pyobj_ind (P : pyobj -> Prop)
    (HNone : P PyNone)
    (HBool : forall b, P (PyBool b))
    (HInt : forall z, P (PyInt z))
    (HStr : forall s, P (PyStr s))
    (HTuple : forall items, Forall P items -> P (PyTuple items))
    (HDict : forall items, Forall (fun kv => P (snd kv)) items -> P (PyDict items))
    (o : pyobj) {struct o} : P o :=
  let rec := pyobj_ind P HNone HBool HInt HStr HTuple HDict in
  match o with
  | PyNone => HNone
  | PyBool b => HBool b
  | PyInt z => HInt z
  | PyStr s => HStr s
  | PyTuple items =>
      HTuple items
        ((fix all (l : list pyobj) : Forall P l :=
            match l with
            | [] => @List.Forall_nil _ P
            | x :: l' => @List.Forall_cons _ P x l' (rec x) (all l')
            end) items)
  | PyDict items =>
      HDict items
        ((fix all (l : list (string * pyobj)) : Forall (fun kv => P (snd kv)) l :=
            match l with
            | [] => @List.Forall_nil _ (fun kv => P (snd kv))
            | kv :: l' => @List.Forall_cons _ (fun kv => P (snd kv)) kv l' (rec (snd kv)) (all l')
            end) items)
  end.

(** Python 2 [unicode] text: a sequence of code points. *)
Inductive unicode : Type := Unicode (code_points : list N).

(** An ASCII literal read as text. *)
Definition u (s : string) : unicode :=
  Unicode (map N_of_ascii (list_ascii_of_string s)).

(** ** Exceptions *)

(** class RemoteRPCError(Exception) *)
Record RemoteRPCError := {
  ename : unicode;
  evalue : unicode;
  traceback : unicode;
  args : unicode * unicode
}.

(** RemoteRPCError.__init__ *)
Definition RemoteRPCError__init__ (ename evalue traceback : unicode) : RemoteRPCError :=
  {| ename := ename; evalue := evalue; traceback := traceback;
     args := (ename, evalue) |}.

(** [exn]: exceptions of the modelled code itself, and those passing
    through it.

    [exc_info]: what [sys.exc_info()] holds when supplied code (a method, a
    serializer, a callback) has raised, as far as [_send_error] looks at it.
    [_send_error] asks for three texts, [unicode(etype.__name__)],
    [unicode(evalue)] and [unicode(traceback.format_exc(tb))]; each of these
    conversions gives a text or raises.

    [conversion]: the text, or the exception the conversion raises
    (UnicodeDecodeError with the ascii codec for a byte string that is not
    ASCII, as [unicode(ValueError('caf\xc3\xa9'))] in Python 2). *)
Inductive exn : Type :=
| RuntimeError (msg : string)
| IndexError (msg : string)
| AttributeError (msg : string)
| UnboundLocalError (msg : string)
| UnicodeDecodeError (codec : string)
| Remote (err : RemoteRPCError)
| Foreign (info : exc_info)
with exc_info : Type :=
| ExcInfo (exc_name exc_value exc_traceback : conversion)
with conversion : Type :=
| Text (text : unicode)
| Unconvertible (raised : exn).

Definition exc_name (e : exc_info) : conversion :=
  match e with ExcInfo name _ _ => name end.

Definition exc_value (e : exc_info) : conversion :=
  match e with ExcInfo _ value _ => value end.

Definition exc_traceback (e : exc_info) : conversion :=
  match e with ExcInfo _ _ tb => tb end.

(** A text is a conversion that succeeded. *)
Coercion Text : unicode >-> conversion.

(** Result of running supplied code. *)
Inductive result (A : Type) : Type :=
| Ok (a : A)
| Exc (e : exc_info).
Arguments Ok {A} a.
Arguments Exc {A} e.

(** Result of running modelled code. [Blocks]: the statement never returns
    (a blocking receive on a socket on which nothing arrives). *)
Inductive outcome (A : Type) : Type :=
| Returns (a : A)
| Raises (e : exn)
| Blocks.
Arguments Returns {A} a.
Arguments Raises {A} e.
Arguments Blocks {A}.

(** ** The instance monad: state of [self], exceptions *)

Definition M (S A : Type) : Type := S -> S * outcome A.

Definition ret {S A} (a : A) : M S A := fun s => (s, Returns a).

Definition bind {S A B} (c : M S A) (k : A -> M S B) : M S B :=
  fun s =>
    match c s with
    | (s', Returns a) => k a s'
    | (s', Raises e) => (s', Raises e)
    | (s', Blocks) => (s', Blocks)
    end.

Definition raise {S A} (e : exn) : M S A := fun s => (s, Raises e).
Definition gets {S A} (f : S -> A) : M S A := fun s => (s, Returns (f s)).
Definition modify {S} (f : S -> S) : M S unit := fun s => (f s, Returns tt).

(** An exception of supplied code that nothing catches propagates. *)
Definition propagate {S A} (r : result A) : M S A :=
  match r with
  | Ok a => ret a
  | Exc e => raise (Foreign e)
  end.

(** [try: c except: h], with a bare [except]. *)
Definition try_except {S A} (c : M S A) (h : exn -> M S A) : M S A :=
  fun s =>
    match c s with
    | (s', Raises e) => h e s'
    | r => r
    end.

Declare Scope py_scope.
Delimit Scope py_scope with py.
Notation "x <-- c ;; k" := (bind c (fun x => k))
  (at level 100, c at next level, right associativity) : py_scope.
Notation "c ;;; k" := (bind c (fun _ => k))
  (at level 100, right associativity) : py_scope.
Open Scope py_scope.

(** [l[i]] *)
Definition index {S} (msg_list : list string) (i : nat) : M S string :=
  match msg_list !! i with
  | Some frame => ret frame
  | None => raise (IndexError "list index out of range")
  end.

(** ** Transport: frames handed to [send] *)

Inductive flags : Type := NOFLAGS | SNDMORE.

Definition wire := list (string * flags).

(** The multipart messages a log of [send] operations forms: frames sent
    with [SNDMORE] are joined with the next frame sent without it. *)
Fixpoint multiparts_from (acc : list string) (log : wire) : list (list string) :=
  match log with
  | [] => []
  | (frame, SNDMORE) :: log' => multiparts_from (acc ++ [frame]) log'
  | (frame, NOFLAGS) :: log' => (acc ++ [frame]) :: multiparts_from [] log'
  end.

Definition multiparts (log : wire) : list (list string) := multiparts_from [] log.

(** ** RPCBase *)

Inductive endpoint : Type := Bound (url : string) | Connected (url : string).

Record RPCBase := mkRPCBase {
  _serializer : pyobj -> result string;
  _deserializer : string -> result pyobj;
  urls : list string;
  endpoints : list endpoint
}.

(** RPCBase.__init__ followed by reset: no url, a fresh socket. *)
Definition RPCBase__init__ (serializer : pyobj -> result string)
    (deserializer : string -> result pyobj) : RPCBase :=
  mkRPCBase serializer deserializer [] [].

(** RPCBase.bind *)
Definition RPCBase_bind (url : string) (self : RPCBase) : RPCBase :=
  mkRPCBase (_serializer self) (_deserializer self)
            (urls self ++ [url]) (endpoints self ++ [Bound url]).

(** RPCBase.connect *)
Definition RPCBase_connect (url : string) (self : RPCBase) : RPCBase :=
  mkRPCBase (_serializer self) (_deserializer self)
            (urls self ++ [url]) (endpoints self ++ [Connected url]).

(** RPCBase.reset: the socket is closed and a new one is created; the list
    of urls starts again. *)
Definition RPCBase_reset (self : RPCBase) : RPCBase :=
  mkRPCBase (_serializer self) (_deserializer self) [] [].

(** One call of [bind] or [connect], named by the endpoint it adds. *)
Definition RPCBase_attach (self : RPCBase) (e : endpoint) : RPCBase :=
  match e with
  | Bound url => RPCBase_bind url self
  | Connected url => RPCBase_connect url self
  end.

Definition endpoint_url (e : endpoint) : string :=
  match e with
  | Bound url => url
  | Connected url => url
  end.

(** Names in the instance [__dict__] after [RPCBase.__init__]. *)
Definition RPCBase_instance_attributes : list string :=
  ["loop"; "context"; "socket"; "stream"; "_serializer"; "_deserializer"; "urls"].

(** Names defined by class [RPCBase]. *)
Definition RPCBase_class_attributes : list string :=
  ["__init__"; "_serialize"; "_deserialize"; "reset"; "bind"; "connect"].

(** ** Attribute access on a proxy *)

(** What an attribute access on a proxy evaluates to, as far as its truth
    value and its own attributes matter. [VObject]: an instance whose class
    defines neither [__nonzero__] nor [__len__] (loop, context, socket,
    stream, a callable). [VSized]: a list or a dict of that length.
    [VRemoteMethod]: an instance of RemoteMethod or AsyncRemoteMethod. *)
Inductive pyvalue : Type :=
| VObject
| VNone
| VSized (len : nat)
| VBoundMethod (name : string)
| VRemoteMethod (method : string).

(** [bool(v)], as taken by [not v]. *)
Definition truth (v : pyvalue) : bool :=
  match v with
  | VNone => false
  | VSized len => negb (Nat.eqb len 0)
  | VObject | VBoundMethod _ | VRemoteMethod _ => true
  end.

(** Names an instance of RemoteMethodBase answers to: the two set by
    [RemoteMethodBase.__init__], and the methods of the class. The class has
    no [__getattr__]. *)
Definition RemoteMethod_attributes : list string :=
  ["proxy"; "method"; "__init__"; "__call__"].

(** [v.name] for a value [v] obtained from a proxy. Attributes of opaque
    objects are not modelled: the access is taken to succeed. *)
Definition value_getattr {S} (class_name : string) (v : pyvalue) (name : string)
  : M S pyvalue :=
  match v with
  | VRemoteMethod _ =>
      if bool_decide (name ∈ RemoteMethod_attributes) then ret VObject
      else raise (AttributeError ("'" +:+ class_name
                     +:+ "' object has no attribute '" +:+ name +:+ "'"))
  | VNone =>
      raise (AttributeError ("'NoneType' object has no attribute '" +:+ name +:+ "'"))
  | _ => ret VObject
  end.

(** Names defined by class [RPCServiceProxyBase]. *)
Definition RPCServiceProxyBase_class_attributes : list string :=
  ["_create_socket"; "_init_stream"].

(** ** RPCService: the ROUTER side *)

Module Service.

(** What [getattr(self, method, None)] can find. *)
Inductive attribute : Type :=
| UserMethod (is_rpc_method : bool) (body : pyobj -> pyobj -> result pyobj)
| InheritedMethod (name : string)
| InstanceAttribute (name : string).

(** [getattr(handler, 'is_rpc_method', False)]: only [rpc_method] sets
    the flag, and only on a function of the service class. *)
Definition is_rpc_method (handler : attribute) : bool :=
  match handler with
  | UserMethod flag _ => flag
  | InheritedMethod _ => false
  | InstanceAttribute _ => false
  end.

(** def rpc_method(f): f.is_rpc_method = True; return f *)
Definition rpc_method (f : attribute) : attribute :=
  match f with
  | UserMethod _ body => UserMethod true body
  | other => other
  end.

(** An instance of a subclass of RPCService. [methods] are the functions
    of the subclass; [stream] logs [self.stream.send]; [called] is the
    list of handler invocations made (method name, args, kwargs);
    [logged] collects the messages of [logging.error]. *)
Record RPCService := mkRPCService {
  base : RPCBase;
  methods : gmap string attribute;
  ident : option string;
  msg_id : option string;
  stream : wire;
  called : list (string * pyobj * pyobj);
  logged : list string
}.

Definition RPCService__init__ (methods : gmap string attribute)
    (serializer : pyobj -> result string)
    (deserializer : string -> result pyobj) : RPCService :=
  mkRPCService (RPCBase__init__ serializer deserializer) methods None None [] [] [].

Definition bind_url (url : string) (self : RPCService) : RPCService :=
  mkRPCService (RPCBase_bind url (base self)) (methods self) (ident self)
               (msg_id self) (stream self) (called self) (logged self).

(** The instance once [self.ident] and [self.msg_id] are assigned. *)
Definition receiving (ident msg_id : string) (self : RPCService) : RPCService :=
  mkRPCService (base self) (methods self) (Some ident) (Some msg_id)
               (stream self) (called self) (logged self).

Definition set_ident (v : string) : M RPCService unit :=
  modify (fun self => mkRPCService (base self) (methods self) (Some v)
                        (msg_id self) (stream self) (called self) (logged self)).

Definition set_msg_id (v : string) : M RPCService unit :=
  modify (fun self => mkRPCService (base self) (methods self) (ident self)
                        (Some v) (stream self) (called self) (logged self)).

(** self.stream.send(frame, flags) *)
Definition stream_send (frame : string) (fl : flags) : M RPCService unit :=
  modify (fun self => mkRPCService (base self) (methods self) (ident self)
                        (msg_id self) (stream self ++ [(frame, fl)])
                        (called self) (logged self)).

Definition record_call (method : string) (args kwargs : pyobj) : M RPCService unit :=
  modify (fun self => mkRPCService (base self) (methods self) (ident self)
                        (msg_id self) (stream self)
                        (called self ++ [(method, args, kwargs)]) (logged self)).

(** logging.error(msg) *)
Definition logging_error (msg : string) : M RPCService unit :=
  modify (fun self => mkRPCService (base self) (methods self) (ident self)
                        (msg_id self) (stream self) (called self)
                        (logged self ++ [msg])).

(** Reading [self.ident] / [self.msg_id]. *)
Definition get_attr (name : string) (field : RPCService -> option string)
  : M RPCService string :=
  fun self =>
    match field self with
    | Some v => (self, Returns v)
    | None => (self, Raises (AttributeError
                 ("'RPCService' object has no attribute '" +:+ name +:+ "'")))
    end.

Definition instance_attributes (self : RPCService) : list string :=
  RPCBase_instance_attributes
    ++ match ident self with Some _ => ["ident"] | None => [] end
    ++ match msg_id self with Some _ => ["msg_id"] | None => [] end.

Definition class_attributes : list string :=
  ["_create_socket"; "_handle_request"; "_send_error"] ++ RPCBase_class_attributes.

(** [getattr(self, name, None)]: the instance dictionary first, then the
    class of the service, then RPCService and RPCBase. *)
Definition getattr (self : RPCService) (name : string) : option attribute :=
  if bool_decide (name ∈ instance_attributes self) then Some (InstanceAttribute name)
  else match methods self !! name with
       | Some f => Some f
       | None => if bool_decide (name ∈ class_attributes)
                 then Some (InheritedMethod name) else None
       end.

(** RPCBase._serialize / RPCBase._deserialize *)
Definition _serialize (o : pyobj) : M RPCService (result string) :=
  gets (fun self => _serializer (base self) o).

Definition _deserialize (o : string) : M RPCService pyobj :=
  r <-- gets (fun self => _deserializer (base self) o) ;; propagate r.

Section Dispatcher.

(** [u.encode('utf-8')], as done by [send_unicode]. *)
Variable utf8_encode : unicode -> string.

(** self.stream.send_unicode(u, flags) *)
Definition stream_send_unicode (text : unicode) (fl : flags) : M RPCService unit :=
  stream_send (utf8_encode text) fl.

(** [unicode(x)], for one of the three texts of the exception. *)
Definition unicode_of (c : conversion) : M RPCService unicode :=
  match c with
  | Text text => ret text
  | Unconvertible raised => raise raised
  end.

(** RPCService._send_error, for the exception being handled. Each text is
    converted when its [send_unicode] is reached, after the frames before
    it were sent; nothing catches what a conversion raises. *)
Definition _send_error (exc : exc_info) : M RPCService unit :=
  ident <-- get_attr "ident" ident ;;
  stream_send ident SNDMORE ;;;
  msg_id <-- get_attr "msg_id" msg_id ;;
  stream_send msg_id SNDMORE ;;;
  stream_send "FAILURE" SNDMORE ;;;
  ename <-- unicode_of (exc_name exc) ;;
  stream_send_unicode ename SNDMORE ;;;
  evalue <-- unicode_of (exc_value exc) ;;
  stream_send_unicode evalue SNDMORE ;;;
  tb <-- unicode_of (exc_traceback exc) ;;
  stream_send_unicode tb NOFLAGS.

(** RPCService._handle_request *)
Definition _handle_request (msg_list : list string) : M RPCService unit :=
  frame0 <-- index msg_list 0 ;;
  set_ident frame0 ;;;
  frame1 <-- index msg_list 1 ;;
  set_msg_id frame1 ;;;
  method <-- index msg_list 2 ;;
  frame3 <-- index msg_list 3 ;;
  args <-- _deserialize frame3 ;;
  frame4 <-- index msg_list 4 ;;
  kwargs <-- _deserialize frame4 ;;
  handler <-- gets (fun self => getattr self method) ;;
  match handler with
  | Some (UserMethod true body) =>
      record_call method args kwargs ;;;
      match body args kwargs with
      | Exc e => _send_error e
      | Ok result =>
          presult <-- _serialize result ;;
          match presult with
          | Exc e => _send_error e
          | Ok presult =>
              ident <-- get_attr "ident" ident ;;
              stream_send ident SNDMORE ;;;
              msg_id <-- get_attr "msg_id" msg_id ;;
              stream_send msg_id SNDMORE ;;;
              stream_send "SUCCESS" SNDMORE ;;;
              stream_send presult NOFLAGS
          end
      end
  | _ => logging_error ("Unknown RPC method: " +:+ method)
  end.

(** The frames [_send_error] sends after the identity and the call-id, and
    how it ends: with the last frame, or with the exception of the first
    conversion that raises, the frames before it sent and the message left
    open. *)
Definition failure_tail (e : exc_info) : wire * outcome unit :=
  match exc_name e with
  | Unconvertible raised => ([("FAILURE", SNDMORE)], Raises raised)
  | Text ename =>
      match exc_value e with
      | Unconvertible raised =>
          ([("FAILURE", SNDMORE); (utf8_encode ename, SNDMORE)], Raises raised)
      | Text evalue =>
          match exc_traceback e with
          | Unconvertible raised =>
              ([("FAILURE", SNDMORE); (utf8_encode ename, SNDMORE);
                (utf8_encode evalue, SNDMORE)], Raises raised)
          | Text tb =>
              ([("FAILURE", SNDMORE); (utf8_encode ename, SNDMORE);
                (utf8_encode evalue, SNDMORE); (utf8_encode tb, NOFLAGS)],
               Returns tt)
          end
      end
  end.

(** The frames [_handle_request] sends after the identity and the call-id
    once it has called [body], and how it ends: lines 166-179. *)
Definition reply_tail (self : RPCService) (body : pyobj -> pyobj -> result pyobj)
    (args kwargs : pyobj) : wire * outcome unit :=
  match body args kwargs with
  | Ok r =>
      match _serializer (base self) r with
      | Ok presult => ([("SUCCESS", SNDMORE); (presult, NOFLAGS)], Returns tt)
      | Exc e => failure_tail e
      end
  | Exc e => failure_tail e
  end.

End Dispatcher.

End Service.

(** ** AsyncRPCServiceProxy *)

Module AsyncProxy.

(** What a callback receives: the deserialized result, or an instance of
    RemoteRPCError (passed, not raised). *)
Inductive reply : Type :=
| Value (v : pyobj)
| Failure (err : RemoteRPCError).

Definition callback := reply -> result unit.

(** [stream] logs [self.stream.send]; [called] lists the callback
    invocations made so far: the call-id under which the callback was
    found, and its argument. *)
Record AsyncRPCServiceProxy := mkAsyncRPCServiceProxy {
  base : RPCBase;
  stream : wire;
  _callbacks : gmap string callback;
  called : list (string * reply)
}.

Definition AsyncRPCServiceProxy__init__ (serializer : pyobj -> result string)
    (deserializer : string -> result pyobj) : AsyncRPCServiceProxy :=
  mkAsyncRPCServiceProxy (RPCBase__init__ serializer deserializer) [] ∅ [].

Definition bind_url (url : string) (self : AsyncRPCServiceProxy) : AsyncRPCServiceProxy :=
  mkAsyncRPCServiceProxy (RPCBase_bind url (base self)) (stream self)
                         (_callbacks self) (called self).

Definition connect_url (url : string) (self : AsyncRPCServiceProxy) : AsyncRPCServiceProxy :=
  mkAsyncRPCServiceProxy (RPCBase_connect url (base self)) (stream self)
                         (_callbacks self) (called self).

(** RPCBase.reset on an asynchronous proxy: [_create_socket] and
    [_init_stream] make a new socket and a new stream, on which nothing was
    sent yet; [_callbacks] is not touched. *)
Definition reset (self : AsyncRPCServiceProxy) : AsyncRPCServiceProxy :=
  mkAsyncRPCServiceProxy (RPCBase_reset (base self)) [] (_callbacks self) (called self).

(** self.stream.send(frame, flags) *)
Definition stream_send (frame : string) (fl : flags) : M AsyncRPCServiceProxy unit :=
  modify (fun self => mkAsyncRPCServiceProxy (base self) (stream self ++ [(frame, fl)])
                        (_callbacks self) (called self)).

(** self._callbacks[msg_id] = callback *)
Definition set_callback (msg_id : string) (cb : callback) : M AsyncRPCServiceProxy unit :=
  modify (fun self => mkAsyncRPCServiceProxy (base self) (stream self)
                        (<[msg_id := cb]> (_callbacks self)) (called self)).

(** cb(result) *)
Definition invoke (msg_id : string) (cb : callback) (arg : reply)
  : M AsyncRPCServiceProxy unit :=
  modify (fun self => mkAsyncRPCServiceProxy (base self) (stream self)
                        (_callbacks self) (called self ++ [(msg_id, arg)])) ;;;
  propagate (cb arg).

Definition _serialize (o : pyobj) : M AsyncRPCServiceProxy string :=
  r <-- gets (fun self => _serializer (base self) o) ;; propagate r.

Definition _deserialize (o : string) : M AsyncRPCServiceProxy pyobj :=
  r <-- gets (fun self => _deserializer (base self) o) ;; propagate r.

Definition class_attributes : list string :=
  ["__init__"; "_init_stream"; "_handle_reply"; "__getattr__"; "call"]
    ++ RPCServiceProxyBase_class_attributes ++ RPCBase_class_attributes.

(** AsyncRPCServiceProxy.__getattr__ *)
Definition __getattr__ (self : AsyncRPCServiceProxy) (name : string) : pyvalue :=
  VRemoteMethod name.

(** [self.name]: the instance dictionary, then the classes; [__getattr__]
    is consulted only when both fail. *)
Definition getattr (self : AsyncRPCServiceProxy) (name : string) : pyvalue :=
  if bool_decide (name = "urls") then VSized (length (urls (base self)))
  else if bool_decide (name = "_callbacks") then VSized (size (_callbacks self))
  else if bool_decide (name ∈ RPCBase_instance_attributes) then VObject
  else if bool_decide (name ∈ class_attributes) then VBoundMethod name
  else __getattr__ self name.

(** self.log.error(msg, exc_info=True) *)
Definition log_error (msg : string) : M AsyncRPCServiceProxy unit :=
  log <-- gets (fun self => getattr self "log") ;;
  error <-- value_getattr "AsyncRemoteMethod" log "error" ;;
  ret tt.

(** Lines 251-254 once [cb(result)] has given [r]: a callback that returns
    ends the handler; one that raises sends it to the [except] clause, and
    from there to the AttributeError of [self.log.error]. *)
Definition callback_outcome (r : result unit) : outcome unit :=
  match r with
  | Ok _ => Returns tt
  | Exc _ => Raises (AttributeError "'AsyncRemoteMethod' object has no attribute 'error'")
  end.

(** Reading a local variable that may not have been assigned. *)
Definition local {A} (name : string) (v : option A) : M AsyncRPCServiceProxy A :=
  match v with
  | Some a => ret a
  | None => raise (UnboundLocalError
              ("local variable '" +:+ name +:+ "' referenced before assignment"))
  end.

(** AsyncRPCServiceProxy.call *)
Definition call (uuid4 : string) (method : string) (cb : callback)
    (args : list pyobj) (kwargs : list (string * pyobj)) : M AsyncRPCServiceProxy unit :=
  _ready <-- gets (fun self => getattr self "_ready") ;;
  if negb (truth _ready) then
    raise (RuntimeError "bind or connect must be called first")
  else
    pargs <-- _serialize (PyTuple args) ;;
    pkwargs <-- _serialize (PyDict kwargs) ;;
    let msg_id := uuid4 in
    stream_send msg_id SNDMORE ;;;
    stream_send method SNDMORE ;;;
    stream_send pargs SNDMORE ;;;
    stream_send pkwargs NOFLAGS ;;;
    set_callback msg_id cb.

Section ReplyHandler.

(** [b.decode('utf-8')]; [None] when the bytes are not UTF-8. *)
Variable utf8_decode : string -> option unicode.

Definition decode (b : string) : M AsyncRPCServiceProxy unicode :=
  match utf8_decode b with
  | Some text => ret text
  | None => raise (UnicodeDecodeError "utf8")
  end.

(** Lines 241-247 of [_handle_reply]: the local [result], unassigned when
    the status is neither SUCCESS nor FAILURE. *)
Definition reply_result (msg_list : list string) (status : string)
  : M AsyncRPCServiceProxy (option reply) :=
  if bool_decide (status = "SUCCESS") then
    frame2 <-- index msg_list 2 ;;
    result <-- _deserialize frame2 ;;
    ret (Some (Value result))
  else if bool_decide (status = "FAILURE") then
    frame2 <-- index msg_list 2 ;;
    ename <-- decode frame2 ;;
    frame3 <-- index msg_list 3 ;;
    evalue <-- decode frame3 ;;
    frame4 <-- index msg_list 4 ;;
    tb <-- decode frame4 ;;
    ret (Some (Failure (RemoteRPCError__init__ ename evalue tb)))
  else ret None.

(** AsyncRPCServiceProxy._handle_reply *)
Definition _handle_reply (msg_list : list string) : M AsyncRPCServiceProxy unit :=
  msg_id <-- index msg_list 0 ;;
  status <-- index msg_list 1 ;;
  result <-- reply_result msg_list status ;;
  cb <-- gets (fun self => _callbacks self !! msg_id) ;;
  match cb with
  | Some cb =>
      try_except
        (arg <-- local "result" result ;; invoke msg_id cb arg)
        (fun _ => log_error "Unexpected callback error")
  | None => ret tt
  end.

End ReplyHandler.

End AsyncProxy.

(** ** RPCServiceProxy: the synchronous proxy *)

Module SyncProxy.

(** The DEALER socket of a synchronous proxy: the log of [send], the
    messages waiting to be received, and the peer, which answers each
    complete multipart message with the messages it sends back. *)
Record DealerSocket := mkDealerSocket {
  sent : wire;
  inbox : list (list string);
  peer : list string -> list (list string)
}.

Record RPCServiceProxy := mkRPCServiceProxy {
  base : RPCBase;
  socket : DealerSocket
}.

Definition RPCServiceProxy__init__ (serializer : pyobj -> result string)
    (deserializer : string -> result pyobj)
    (peer : list string -> list (list string)) : RPCServiceProxy :=
  mkRPCServiceProxy (RPCBase__init__ serializer deserializer)
                    (mkDealerSocket [] [] peer).

Definition bind_url (url : string) (self : RPCServiceProxy) : RPCServiceProxy :=
  mkRPCServiceProxy (RPCBase_bind url (base self)) (socket self).

Definition connect_url (url : string) (self : RPCServiceProxy) : RPCServiceProxy :=
  mkRPCServiceProxy (RPCBase_connect url (base self)) (socket self).

(** self.socket.send(frame, flags): a frame sent without SNDMORE completes
    a multipart message, which reaches the peer. *)
Definition socket_send (frame : string) (fl : flags) : M RPCServiceProxy unit :=
  modify (fun self =>
    let sock := socket self in
    let sent' := sent sock ++ [(frame, fl)] in
    let inbox' :=
      match fl with
      | SNDMORE => inbox sock
      | NOFLAGS => inbox sock ++ peer sock (List.last (multiparts sent') [])
      end in
    mkRPCServiceProxy (base self) (mkDealerSocket sent' inbox' (peer sock))).

(** self.socket.recv_multipart() *)
Definition recv_multipart : M RPCServiceProxy (list string) :=
  fun self =>
    let sock := socket self in
    match inbox sock with
    | msg :: rest =>
        (mkRPCServiceProxy (base self) (mkDealerSocket (sent sock) rest (peer sock)),
         Returns msg)
    | [] => (self, Blocks)
    end.

Definition _serialize (o : pyobj) : M RPCServiceProxy string :=
  r <-- gets (fun self => _serializer (base self) o) ;; propagate r.

Definition _deserialize (o : string) : M RPCServiceProxy pyobj :=
  r <-- gets (fun self => _deserializer (base self) o) ;; propagate r.

Definition class_attributes : list string :=
  ["call"; "__getattr__"]
    ++ RPCServiceProxyBase_class_attributes ++ RPCBase_class_attributes.

(** RPCServiceProxy.__getattr__ *)
Definition __getattr__ (self : RPCServiceProxy) (name : string) : pyvalue :=
  VRemoteMethod name.

(** [self.name]; [self.stream] stays None in a synchronous proxy. *)
Definition getattr (self : RPCServiceProxy) (name : string) : pyvalue :=
  if bool_decide (name = "urls") then VSized (length (urls (base self)))
  else if bool_decide (name = "stream") then VNone
  else if bool_decide (name ∈ RPCBase_instance_attributes) then VObject
  else if bool_decide (name ∈ class_attributes) then VBoundMethod name
  else __getattr__ self name.

Section Call.

Variable utf8_decode : string -> option unicode.

Definition decode (b : string) : M RPCServiceProxy unicode :=
  match utf8_decode b with
  | Some text => ret text
  | None => raise (UnicodeDecodeError "utf8")
  end.

(** RPCServiceProxy.call *)
Definition call (uuid4 : string) (method : string)
    (args : list pyobj) (kwargs : list (string * pyobj)) : M RPCServiceProxy pyobj :=
  _ready <-- gets (fun self => getattr self "_ready") ;;
  if negb (truth _ready) then
    raise (RuntimeError "bind or connect must be called first")
  else
    pargs <-- _serialize (PyTuple args) ;;
    pkwargs <-- _serialize (PyDict kwargs) ;;
    let msg_id := uuid4 in
    socket_send msg_id SNDMORE ;;;
    socket_send method SNDMORE ;;;
    socket_send pargs SNDMORE ;;;
    socket_send pkwargs NOFLAGS ;;;
    msg_list <-- recv_multipart ;;
    msg_id <-- index msg_list 0 ;;
    status <-- index msg_list 1 ;;
    if bool_decide (status = "SUCCESS") then
      frame2 <-- index msg_list 2 ;;
      result <-- _deserialize frame2 ;;
      ret result
    else if bool_decide (status = "FAILURE") then
      frame2 <-- index msg_list 2 ;;
      ename <-- decode frame2 ;;
      frame3 <-- index msg_list 3 ;;
      evalue <-- decode frame3 ;;
      frame3' <-- index msg_list 3 ;;
      tb <-- decode frame3' ;;
      raise (Remote (RemoteRPCError__init__ ename evalue tb))
    else ret PyNone.

(** The instance once [call] has sent [frames], a complete request. *)
Definition after_request (self : RPCServiceProxy) (frames : wire) : RPCServiceProxy :=
  mkRPCServiceProxy (base self)
    (mkDealerSocket (sent (socket self) ++ frames)
       (inbox (socket self)
          ++ peer (socket self) (List.last (multiparts (sent (socket self) ++ frames)) []))
       (peer (socket self))).

(** Lines 324-333 of [call] on their own: what [call] does with the
    message it receives. *)
Definition read_reply (msg_list : list string) : M RPCServiceProxy pyobj :=
  msg_id <-- index msg_list 0 ;;
  status <-- index msg_list 1 ;;
  if bool_decide (status = "SUCCESS") then
    frame2 <-- index msg_list 2 ;;
    result <-- _deserialize frame2 ;;
    ret result
  else if bool_decide (status = "FAILURE") then
    frame2 <-- index msg_list 2 ;;
    ename <-- decode frame2 ;;
    frame3 <-- index msg_list 3 ;;
    evalue <-- decode frame3 ;;
    frame3' <-- index msg_list 3 ;;
    tb <-- decode frame3' ;;
    raise (Remote (RemoteRPCError__init__ ename evalue tb))
  else ret PyNone.

(** RemoteMethod.__call__, on the object [proxy.method]. *)
Definition RemoteMethod__call__ (method : string) (uuid4 : string)
    (args : list pyobj) (kwargs : list (string * pyobj)) : M RPCServiceProxy pyobj :=
  call uuid4 method args kwargs.

End Call.

End SyncProxy.

(** ** AsyncRemoteMethod *)


(** ** A concrete serializer pair *)

(** The serializer is pluggable ([serializer=], [deserializer=]). This one
    writes a value as a tagged prefix code; it is used to run the model. *)
Module SimpleCodec.

Open Scope char_scope.

Definition enc_nat (n : nat) : list ascii := repeat "1" n ++ ["0"].

Fixpoint dec_nat (l : list ascii) : option (nat * list ascii) :=
  match l with
  | "1" :: l' =>
      match dec_nat l' with
      | Some (n, rest) => Some (S n, rest)
      | None => None
      end
  | "0" :: l' => Some (0, l')
  | _ => None
  end.

Definition enc_Z (z : Z) : list ascii :=
  (if (z <? 0)%Z then "-" else "+") :: enc_nat (Z.abs_nat z).

Definition dec_Z (l : list ascii) : option (Z * list ascii) :=
  match l with
  | "-" :: l' =>
      match dec_nat l' with
      | Some (n, rest) => Some ((- Z.of_nat n)%Z, rest)
      | None => None
      end
  | "+" :: l' =>
      match dec_nat l' with
      | Some (n, rest) => Some (Z.of_nat n, rest)
      | None => None
      end
  | _ => None
  end.

Definition enc_str (s : string) : list ascii :=
  enc_nat (String.length s) ++ list_ascii_of_string s.

Definition dec_str (l : list ascii) : option (string * list ascii) :=
  match dec_nat l with
  | Some (n, l') =>
      if (n <=? length l')%nat
      then Some (string_of_list_ascii (take n l'), drop n l')
      else None
  | None => None
  end.

(** [n] items in a row, each read by [d]. *)
Fixpoint dec_seq {A} (d : list ascii -> option (A * list ascii)) (n : nat)
    (l : list ascii) : option (list A * list ascii) :=
  match n with
  | O => Some ([], l)
  | S n' =>
      match d l with
      | Some (a, l') =>
          match dec_seq d n' l' with
          | Some (items, rest) => Some (a :: items, rest)
          | None => None
          end
      | None => None
      end
  end.

Fixpoint enc (o : pyobj) : list ascii :=
  match o with
  | PyNone => ["N"]
  | PyBool b => ["B"; if b then "1" else "0"]
  | PyInt z => "I" :: enc_Z z
  | PyStr s => "S" :: enc_str s
  | PyTuple items => "T" :: enc_nat (length items) ++ flat_map enc items
  | PyDict items =>
      "D" :: enc_nat (length items)
          ++ flat_map (fun kv => enc_str (fst kv) ++ enc (snd kv)) items
  end.

Definition dec_entry (d : list ascii -> option (pyobj * list ascii))
    (l : list ascii) : option ((string * pyobj) * list ascii) :=
  match dec_str l with
  | Some (k, l') =>
      match d l' with
      | Some (v, rest) => Some ((k, v), rest)
      | None => None
      end
  | None => None
  end.

Fixpoint dec (fuel : nat) (l : list ascii) : option (pyobj * list ascii) :=
  match fuel with
  | O => None
  | S fuel' =>
      match l with
      | "N" :: rest => Some (PyNone, rest)
      | "B" :: "1" :: rest => Some (PyBool true, rest)
      | "B" :: "0" :: rest => Some (PyBool false, rest)
      | "I" :: l' =>
          match dec_Z l' with
          | Some (z, rest) => Some (PyInt z, rest)
          | None => None
          end
      | "S" :: l' =>
          match dec_str l' with
          | Some (s, rest) => Some (PyStr s, rest)
          | None => None
          end
      | "T" :: l' =>
          match dec_nat l' with
          | Some (n, l'') =>
              match dec_seq (dec fuel') n l'' with
              | Some (items, rest) => Some (PyTuple items, rest)
              | None => None
              end
          | None => None
          end
      | "D" :: l' =>
          match dec_nat l' with
          | Some (n, l'') =>
              match dec_seq (dec_entry (dec fuel')) n l'' with
              | Some (items, rest) => Some (PyDict items, rest)
              | None => None
              end
          | None => None
          end
      | _ => None
      end
  end.

Close Scope char_scope.

Definition dumps (o : pyobj) : result string :=
  Ok (string_of_list_ascii (enc o)).

Definition loads (b : string) : result pyobj :=
  match dec (String.length b) (list_ascii_of_string b) with
  | Some (o, []) => Ok o
  | _ => Exc (ExcInfo (u "ValueError") (u "malformed data") (u "Traceback: loads"))
  end.

End SimpleCodec.

(** ** Text restricted to ASCII *)

(** UTF-8 on text whose code points are below 128, where it is one byte per
    code point; anything else is refused. Used to run the model. *)
Module AsciiText.

Definition encode (text : unicode) : string :=
  match text with
  | Unicode code_points => string_of_list_ascii (map ascii_of_N code_points)
  end.

Definition decode (b : string) : option unicode :=
  if forallb (fun c => (N_of_ascii c <? 128)%N) (list_ascii_of_string b)
  then Some (u b) else None.

End AsciiText.

(** ** ROUTER and DEALER *)

(** A ROUTER socket puts the identity of the sending peer in front of each
    message it receives. *)
Definition router_recv (identity : string) (msg : list string) : list string :=
  identity :: msg.

(** A ROUTER socket routes a message it sends by its first frame, which it
    removes: [Some] of the rest when the message goes to [identity]. *)
Definition router_send (identity : string) (msg : list string)
  : option (list string) :=
  match msg with
  | first :: rest => if bool_decide (first = identity) then Some rest else None
  | [] => None
  end.

(** The peer of a DEALER socket of identity [identity] connected to the
    service [svc]: the request goes through [_handle_request], and the
    messages the service sends to [identity] come back. *)
Definition served_by (utf8_encode : unicode -> string) (svc : Service.RPCService)
    (identity : string) (request : list string) : list (list string) :=
  let svc' := fst (Service._handle_request utf8_encode (router_recv identity request) svc) in
  omap (router_send identity)
       (multiparts (drop (length (Service.stream svc)) (Service.stream svc'))).

(** ** The Echo service of the module docstring, and a few more methods *)

Module Echo.

(** Binding of [*args]: the items the deserialized object iterates over. *)
Definition star_args (args : pyobj) : option (list pyobj) :=
  match args with
  | PyTuple items => Some items
  | PyStr s => Some (map (fun c => PyStr (String c EmptyString)) (list_ascii_of_string s))
  | PyDict items => Some (map (fun kv => PyStr (fst kv)) items)
  | _ => None
  end.

(** Binding of [**kwargs]: the object has to be a mapping. *)
Definition star_kwargs (kwargs : pyobj) : option (list (string * pyobj)) :=
  match kwargs with
  | PyDict items => Some items
  | _ => None
  end.

Definition TypeError (msg : string) : exc_info :=
  ExcInfo (u "TypeError") (u msg) (u "Traceback (most recent call last): TypeError").

Definition ValueError (msg : string) : exc_info :=
  ExcInfo (u "ValueError") (u msg) (u "Traceback (most recent call last): ValueError").

(** def echo(self, s): return s *)
Definition echo (args kwargs : pyobj) : result pyobj :=
  match star_args args, star_kwargs kwargs with
  | Some [s], Some [] => Ok s
  | Some [], Some [(name, s)] =>
      if bool_decide (name = "s") then Ok s
      else Exc (TypeError "echo() got an unexpected keyword argument")
  | _, _ => Exc (TypeError "echo() takes exactly 2 arguments")
  end.

(** def fail(self, *args, **kwargs): raise ValueError("bad input") *)
Definition fail (args kwargs : pyobj) : result pyobj :=
  Exc (ValueError "bad input").

(** def cafe(self, *args, **kwargs): raise ValueError('caf\xc3\xa9')
    The message is a byte string that is not ASCII: [unicode(evalue)]
    raises UnicodeDecodeError, and so does the conversion of the formatted
    traceback, which ends with the message. *)
Definition cafe (args kwargs : pyobj) : result pyobj :=
  Exc (ExcInfo (u "ValueError")
               (Unconvertible (UnicodeDecodeError "ascii"))
               (Unconvertible (UnicodeDecodeError "ascii"))).

(** def nothing(self, *args, **kwargs): return None *)
Definition nothing (args kwargs : pyobj) : result pyobj := Ok PyNone.

(** class Echo(RPCService): [echo], [fail] and [nothing] are decorated
    with [rpc_method]; [secret] is not. *)
Definition Echo_methods : gmap string Service.attribute :=
  <["echo" := Service.rpc_method (Service.UserMethod false echo)]>
  (<["fail" := Service.rpc_method (Service.UserMethod false fail)]>
  (<["nothing" := Service.rpc_method (Service.UserMethod false nothing)]>
  (<["secret" := Service.UserMethod false echo]> ∅))).

Definition Echo (serializer : pyobj -> result string)
    (deserializer : string -> result pyobj) : Service.RPCService :=
  Service.RPCService__init__ Echo_methods serializer deserializer.

(** class Cafe(Echo), with [cafe] decorated with [rpc_method]. *)
Definition Cafe (serializer : pyobj -> result string)
    (deserializer : string -> result pyobj) : Service.RPCService :=
  Service.RPCService__init__
    (<["cafe" := Service.rpc_method (Service.UserMethod false cafe)]> Echo_methods)
    serializer deserializer.

(** A serializer whose error message is a byte string that is not ASCII. *)
Definition cafe_dumps (o : pyobj) : result string :=
  match o with
  | PyNone => Exc (ExcInfo (u "TypeError")
                           (Unconvertible (UnicodeDecodeError "ascii"))
                           (Unconvertible (UnicodeDecodeError "ascii")))
  | _ => SimpleCodec.dumps o
  end.

(** A serializer that refuses None, as a codec without a null would. *)
Definition strict_dumps (o : pyobj) : result string :=
  match o with
  | PyNone => Exc (TypeError "None is not serializable")
  | _ => SimpleCodec.dumps o
  end.

(** A serializer that refuses a tuple holding None, as a codec without a
    null would. *)
Definition no_none_dumps (o : pyobj) : result string :=
  match o with
  | PyTuple items =>
      if existsb (fun item => match item with PyNone => true | _ => false end) items
      then Exc (TypeError "None is not serializable")
      else SimpleCodec.dumps o
  | _ => SimpleCodec.dumps o
  end.

(** Callbacks. *)
Definition accept : AsyncProxy.callback := fun _ => Ok tt.
Definition reject : AsyncProxy.callback := fun _ => Exc (ValueError "bad callback").

End Echo.

(** * Properties *)

(** Unfolding of the monad. *)
Ltac run_monad :=
  repeat (progress (unfold bind, ret, raise, gets, modify, propagate, try_except;
                    simpl)).

(** ** The dispatcher *)

Section DispatcherFacts.

Import Service.

Variable utf8_encode : unicode -> string.

(** [_send_error] on an instance whose identity and call-id are set: the
    frames it sends, and how it ends. *)
Lemma send_error_run (e : exc_info) (ident msg_id : string) (self : RPCService) :
  Service.ident self = Some ident ->
  Service.msg_id self = Some msg_id ->
  _send_error utf8_encode e self
  = (mkRPCService (base self) (methods self) (Service.ident self) (Service.msg_id self)
       (stream self ++ (ident, SNDMORE) :: (msg_id, SNDMORE)
                         :: fst (failure_tail utf8_encode e))
       (called self) (logged self),
     snd (failure_tail utf8_encode e)).
Proof.
  intros Hident Hmsg_id.
  unfold _send_error, failure_tail, unicode_of, stream_send_unicode, stream_send,
    get_attr.
  run_monad. rewrite Hident. run_monad. rewrite Hmsg_id. run_monad.
  destruct e as [[ename | raised] [evalue | raised'] [tb | raised'']]; run_monad;
    repeat rewrite <- app_assoc; simpl; rewrite ?Hident, ?Hmsg_id; reflexivity.
Qed.

(** The frames of a FAILURE reply, as [_send_error] sends them when the
    three texts of the exception convert. *)
Lemma send_error_frames (ename evalue tb : unicode) (ident msg_id : string)
    (self : RPCService) :
  Service.ident self = Some ident ->
  Service.msg_id self = Some msg_id ->
  _send_error utf8_encode (ExcInfo ename evalue tb) self
  = (mkRPCService (base self) (methods self) (Service.ident self) (Service.msg_id self)
       (stream self ++ [(ident, SNDMORE); (msg_id, SNDMORE); ("FAILURE", SNDMORE);
                        (utf8_encode ename, SNDMORE);
                        (utf8_encode evalue, SNDMORE);
                        (utf8_encode tb, NOFLAGS)])
       (called self) (logged self),
     Returns tt).
Proof.
  intros Hident Hmsg_id.
  rewrite (send_error_run _ ident msg_id) by assumption. reflexivity.
Qed.

(** Lines 157-161: with five frames whose blobs deserialize, the request
    reaches the lookup of the handler. *)
Lemma handle_request_decoded (self : RPCService)
    (ident msg_id method pargs pkwargs : string) (rest : list string)
    (args kwargs : pyobj) :
  _deserializer (base self) pargs = Ok args ->
  _deserializer (base self) pkwargs = Ok kwargs ->
  _handle_request utf8_encode (ident :: msg_id :: method :: pargs :: pkwargs :: rest) self
  = let self1 := receiving ident msg_id self in
    match getattr self1 method with
    | Some (UserMethod true body) =>
        (record_call method args kwargs ;;;
         match body args kwargs with
         | Exc e => _send_error utf8_encode e
         | Ok result =>
             presult <-- _serialize result ;;
             match presult with
             | Exc e => _send_error utf8_encode e
             | Ok presult =>
                 ident <-- get_attr "ident" Service.ident ;;
                 stream_send ident SNDMORE ;;;
                 msg_id <-- get_attr "msg_id" Service.msg_id ;;
                 stream_send msg_id SNDMORE ;;;
                 stream_send "SUCCESS" SNDMORE ;;;
                 stream_send presult NOFLAGS
             end
         end) self1
    | _ => logging_error ("Unknown RPC method: " +:+ method) self1
    end.
Proof.
  intros Hargs Hkwargs.
  unfold _handle_request, index, set_ident, set_msg_id, _deserialize.
  run_monad. rewrite Hargs; run_monad. rewrite Hkwargs; run_monad.
  unfold receiving.
  destruct (getattr _ method) as [[[] ?| |]|]; reflexivity.
Qed.

(** The run of a request whose method raises or whose result is refused
    by the serializer, with an exception whose three texts convert. *)
Lemma handle_request_failure (self : RPCService)
    (ident msg_id method pargs pkwargs : string) (rest : list string)
    (args kwargs : pyobj) (body : pyobj -> pyobj -> result pyobj)
    (ename evalue tb : unicode) :
  _deserializer (base self) pargs = Ok args ->
  _deserializer (base self) pkwargs = Ok kwargs ->
  getattr (receiving ident msg_id self) method = Some (UserMethod true body) ->
  (body args kwargs = Exc (ExcInfo ename evalue tb)
   \/ exists r, body args kwargs = Ok r
                /\ _serializer (base self) r = Exc (ExcInfo ename evalue tb)) ->
  exists self',
    _handle_request utf8_encode
      (ident :: msg_id :: method :: pargs :: pkwargs :: rest) self
    = (self', Returns tt)
    /\ stream self'
       = stream self ++ [(ident, SNDMORE); (msg_id, SNDMORE); ("FAILURE", SNDMORE);
                         (utf8_encode ename, SNDMORE);
                         (utf8_encode evalue, SNDMORE);
                         (utf8_encode tb, NOFLAGS)]
    /\ called self' = called self ++ [(method, args, kwargs)].
Proof.
  intros Hargs Hkwargs Hget Hraise.
  rewrite (handle_request_decoded _ _ _ _ _ _ _ _ _ Hargs Hkwargs).
  cbv zeta. rewrite Hget.
  unfold record_call, _serialize. run_monad.
  destruct Hraise as [Hbody | (r & Hbody & Hser)]; rewrite Hbody; run_monad;
    [| rewrite Hser];
    (erewrite send_error_frames by reflexivity);
    (eexists; split; [reflexivity | split; reflexivity]).
Qed.

(** The run of a request whose method returns a result that serializes. *)
Lemma handle_request_success (self : RPCService)
    (ident msg_id method pargs pkwargs : string) (rest : list string)
    (args kwargs : pyobj) (body : pyobj -> pyobj -> result pyobj)
    (r : pyobj) (presult : string) :
  _deserializer (base self) pargs = Ok args ->
  _deserializer (base self) pkwargs = Ok kwargs ->
  getattr (receiving ident msg_id self) method = Some (UserMethod true body) ->
  body args kwargs = Ok r ->
  _serializer (base self) r = Ok presult ->
  exists self',
    _handle_request utf8_encode
      (ident :: msg_id :: method :: pargs :: pkwargs :: rest) self
    = (self', Returns tt)
    /\ stream self'
       = stream self ++ [(ident, SNDMORE); (msg_id, SNDMORE); ("SUCCESS", SNDMORE);
                         (presult, NOFLAGS)]
    /\ called self' = called self ++ [(method, args, kwargs)].
Proof.
  intros Hargs Hkwargs Hget Hbody Hser.
  rewrite (handle_request_decoded _ _ _ _ _ _ _ _ _ Hargs Hkwargs).
  cbv zeta. rewrite Hget.
  unfold record_call, _serialize, get_attr, stream_send. run_monad.
  rewrite Hbody. run_monad. rewrite Hser. run_monad.
  eexists; split; [reflexivity | split; [| reflexivity]].
  simpl. repeat rewrite <- app_assoc. reflexivity.
Qed.

(** X24. A request that resolves to an RPC-exposed method whose invocation
    raises, or whose result the serializer refuses, with an exception whose
    name, message and formatted trace convert to unicode: it is answered by
    one FAILURE reply to the identity and call-id of the request, carrying
    these three texts; the method was invoked once, and [_handle_request]
    returns normally. *)
Theorem handle_request_failure_reply (self : RPCService)
    (ident msg_id method pargs pkwargs : string) (rest : list string)
    (args kwargs : pyobj) (body : pyobj -> pyobj -> result pyobj)
    (ename evalue tb : unicode) :
  _deserializer (base self) pargs = Ok args ->
  _deserializer (base self) pkwargs = Ok kwargs ->
  getattr (receiving ident msg_id self) method = Some (UserMethod true body) ->
  (body args kwargs = Exc (ExcInfo ename evalue tb)
   \/ exists r, body args kwargs = Ok r
                /\ _serializer (base self) r = Exc (ExcInfo ename evalue tb)) ->
  exists self',
    _handle_request utf8_encode
      (ident :: msg_id :: method :: pargs :: pkwargs :: rest) self
    = (self', Returns tt)
    /\ stream self'
       = stream self ++ [(ident, SNDMORE); (msg_id, SNDMORE); ("FAILURE", SNDMORE);
                         (utf8_encode ename, SNDMORE);
                         (utf8_encode evalue, SNDMORE);
                         (utf8_encode tb, NOFLAGS)]
    /\ called self' = called self ++ [(method, args, kwargs)].
Proof.
  intros Hargs Hkwargs Hget Hraise.
  exact (handle_request_failure self ident msg_id method pargs pkwargs rest
           args kwargs body ename evalue tb Hargs Hkwargs Hget Hraise).
Qed.

(** A request whose method name finds nothing on the service, or finds
    something that is not marked by [rpc_method], sends no frame and
    invokes no method, whatever its payload; once its two blobs are
    deserialized, it logs "Unknown RPC method" and returns. *)
Lemma handle_request_unknown_cases (self : RPCService)
    (ident msg_id method : string) (payload : list string) :
  (getattr (receiving ident msg_id self) method = None
   \/ exists h, getattr (receiving ident msg_id self) method = Some h
                /\ is_rpc_method h = false) ->
  let r := _handle_request utf8_encode (ident :: msg_id :: method :: payload) self in
  stream (fst r) = stream self
  /\ called (fst r) = called self
  /\ forall pargs pkwargs rest args kwargs,
       payload = pargs :: pkwargs :: rest ->
       _deserializer (base self) pargs = Ok args ->
       _deserializer (base self) pkwargs = Ok kwargs ->
       snd r = Returns tt
       /\ logged (fst r) = logged self ++ ["Unknown RPC method: " +:+ method].
Proof.
  intros Hget r.
  assert (Hdrop : forall args kwargs,
             match getattr (receiving ident msg_id self) method with
             | Some (UserMethod true body) =>
                 (record_call method args kwargs ;;;
                  match body args kwargs with
                  | Exc e => _send_error utf8_encode e
                  | Ok result =>
                      presult <-- _serialize result ;;
                      match presult with
                      | Exc e => _send_error utf8_encode e
                      | Ok presult =>
                          ident <-- get_attr "ident" Service.ident ;;
                          stream_send ident SNDMORE ;;;
                          msg_id <-- get_attr "msg_id" Service.msg_id ;;
                          stream_send msg_id SNDMORE ;;;
                          stream_send "SUCCESS" SNDMORE ;;;
                          stream_send presult NOFLAGS
                      end
                  end) (receiving ident msg_id self)
             | _ => logging_error ("Unknown RPC method: " +:+ method)
                      (receiving ident msg_id self)
             end
             = logging_error ("Unknown RPC method: " +:+ method)
                 (receiving ident msg_id self)).
  { intros args kwargs.
    destruct Hget as [Hget | (h & Hget & Hflag)]; rewrite Hget; [reflexivity |].
    destruct h as [[] ? | |]; simpl in Hflag; try discriminate; reflexivity. }
  subst r.
  destruct payload as [| pargs [| pkwargs rest]].
  - unfold _handle_request, index, set_ident, set_msg_id. run_monad.
    split; [reflexivity | split; [reflexivity | intros; discriminate]].
  - unfold _handle_request, index, set_ident, set_msg_id, _deserialize. run_monad.
    destruct (_deserializer (base self) pargs); run_monad;
      (split; [reflexivity | split; [reflexivity | intros; discriminate]]).
  - destruct (_deserializer (base self) pargs) as [args | e] eqn:Hargs.
    + destruct (_deserializer (base self) pkwargs) as [kwargs | e] eqn:Hkwargs.
      * rewrite (handle_request_decoded _ _ _ _ _ _ _ _ _ Hargs Hkwargs).
        cbv zeta. rewrite Hdrop.
        unfold logging_error, receiving. run_monad.
        split; [reflexivity | split; [reflexivity | intros; split; reflexivity]].
      * unfold _handle_request, index, set_ident, set_msg_id, _deserialize. run_monad.
        rewrite Hargs. run_monad. rewrite Hkwargs. run_monad.
        split; [reflexivity | split; [reflexivity |]].
        intros ? ? ? ? ? Heq ? Hk. inversion Heq; subst.
        rewrite Hkwargs in Hk; discriminate.
    + unfold _handle_request, index, set_ident, set_msg_id, _deserialize. run_monad.
      rewrite Hargs. run_monad.
      split; [reflexivity | split; [reflexivity |]].
      intros ? ? ? ? ? Heq Ha. inversion Heq; subst.
      rewrite Hargs in Ha; discriminate.
Qed.

(** C7. A request (five frames or more, whose two blobs deserialize) whose
    method name finds nothing on the service, or finds something that
    [rpc_method] did not mark (a method of that name included), logs
    "Unknown RPC method: <name>", sends no frame at all and invokes no
    method. *)
Theorem handle_request_unknown_method (self : RPCService)
    (ident msg_id method pargs pkwargs : string) (rest : list string)
    (args kwargs : pyobj) :
  _deserializer (base self) pargs = Ok args ->
  _deserializer (base self) pkwargs = Ok kwargs ->
  (getattr (receiving ident msg_id self) method = None
   \/ exists h, getattr (receiving ident msg_id self) method = Some h
                /\ is_rpc_method h = false) ->
  exists self',
    _handle_request utf8_encode
      (ident :: msg_id :: method :: pargs :: pkwargs :: rest) self
    = (self', Returns tt)
    /\ logged self' = logged self ++ ["Unknown RPC method: " +:+ method]
    /\ stream self' = stream self
    /\ called self' = called self.
Proof.
  intros Hargs Hkwargs Hget.
  destruct (handle_request_unknown_cases self ident msg_id method
              (pargs :: pkwargs :: rest) Hget) as (Hstream & Hcalled & Hlog).
  destruct (Hlog pargs pkwargs rest args kwargs eq_refl Hargs Hkwargs)
    as (Hret & Hlogged).
  destruct (_handle_request utf8_encode
              (ident :: msg_id :: method :: pargs :: pkwargs :: rest) self)
    as [self' out]; simpl in *; subst out.
  exists self'. repeat split; assumption.
Qed.

(** C10. When the args blob, or after it the kwargs blob, does not
    deserialize, the exception of the deserializer leaves
    [_handle_request]; no frame was sent, no method invoked and nothing
    logged. *)
Theorem handle_request_deserialize_error (self : RPCService)
    (ident msg_id method pargs pkwargs : string) (rest : list string)
    (e : exc_info) :
  (_deserializer (base self) pargs = Exc e
   \/ exists args, _deserializer (base self) pargs = Ok args
                    /\ _deserializer (base self) pkwargs = Exc e) ->
  exists self',
    _handle_request utf8_encode
      (ident :: msg_id :: method :: pargs :: pkwargs :: rest) self
    = (self', Raises (Foreign e))
    /\ stream self' = stream self
    /\ called self' = called self
    /\ logged self' = logged self.
Proof.
  intros Hfail.
  unfold _handle_request, index, set_ident, set_msg_id, _deserialize. run_monad.
  destruct Hfail as [Hargs | (args & Hargs & Hkwargs)]; rewrite Hargs; run_monad;
    [| rewrite Hkwargs; run_monad];
    (eexists; split; [reflexivity | repeat split]).
Qed.

End DispatcherFacts.

(** Case analysis on what decoding a reply reads: the frames, the
    deserializer, the text decoder. *)
Ltac destruct_reads utf8_decode :=
  repeat (match goal with
          | |- context [@lookup nat string (list string) _ ?i ?l] =>
              destruct (@lookup nat string (list string) _ i l); run_monad
          | |- context [_deserializer ?b ?x] => destruct (_deserializer b x); run_monad
          | |- context [utf8_decode ?x] => destruct (utf8_decode x); run_monad
          end).

(** ** The asynchronous proxy *)

Section AsyncProxyFacts.

Import AsyncProxy.

Variable utf8_decode : string -> option unicode.

(** [self._ready] is no attribute of the instance or of its classes: the
    access ends in [__getattr__], whose result is true. *)
Lemma async_ready_true (self : AsyncRPCServiceProxy) :
  truth (getattr self "_ready") = true.
Proof. reflexivity. Qed.

(** Decoding the payload reads the deserializer only and changes nothing. *)
Lemma reply_result_pure (msg_list : list string) (status : string)
    (self : AsyncRPCServiceProxy) :
  fst (reply_result utf8_decode msg_list status self) = self.
Proof.
  unfold reply_result, index, _deserialize, decode.
  repeat case_bool_decide; run_monad; destruct_reads utf8_decode; reflexivity.
Qed.

Lemma reply_result_base (msg_list : list string) (status : string)
    (self self' : AsyncRPCServiceProxy) :
  base self = base self' ->
  snd (reply_result utf8_decode msg_list status self)
  = snd (reply_result utf8_decode msg_list status self').
Proof.
  intros Hbase. destruct self, self'; simpl in Hbase; subst.
  unfold reply_result, index, _deserialize, decode.
  repeat case_bool_decide; run_monad; destruct_reads utf8_decode; reflexivity.
Qed.

(** [_handle_reply] in two steps: decoding, then the lookup of the
    callback. *)
Lemma handle_reply_run (self : AsyncRPCServiceProxy)
    (msg_id status : string) (payload : list string) :
  _handle_reply utf8_decode (msg_id :: status :: payload) self
  = match snd (reply_result utf8_decode (msg_id :: status :: payload) status self) with
    | Returns result =>
        match _callbacks self !! msg_id with
        | Some cb =>
            try_except
              (arg <-- local "result" result ;; invoke msg_id cb arg)
              (fun _ => log_error "Unexpected callback error") self
        | None => (self, Returns tt)
        end
    | Raises e => (self, Raises e)
    | Blocks => (self, Blocks)
    end.
Proof.
  unfold _handle_reply, index. run_monad.
  pose proof (reply_result_pure (msg_id :: status :: payload) status self) as Hpure.
  destruct (reply_result utf8_decode (msg_id :: status :: payload) status self)
    as [self' [result | e |]]; simpl in *; subst self'; try reflexivity.
  destruct (_callbacks self !! msg_id); reflexivity.
Qed.

(** A reply whose call-id is registered: the callback found under it is
    invoked with the decoded result, and the ledger stays as it was. *)
Lemma handle_reply_registered (self : AsyncRPCServiceProxy)
    (msg_id status : string) (payload : list string) (cb : callback) (result : reply) :
  _callbacks self !! msg_id = Some cb ->
  snd (reply_result utf8_decode (msg_id :: status :: payload) status self)
  = Returns (Some result) ->
  fst (_handle_reply utf8_decode (msg_id :: status :: payload) self)
  = mkAsyncRPCServiceProxy (base self) (stream self) (_callbacks self)
      (called self ++ [(msg_id, result)]).
Proof.
  intros Hcb Hresult.
  rewrite handle_reply_run, Hresult, Hcb.
  unfold invoke, local, log_error, value_getattr. run_monad.
  destruct (cb result); reflexivity.
Qed.

(** A callback that raises: the handler of the [except] clause reads
    [self.log], which only [__getattr__] answers, and [.error] on the
    object it returns raises AttributeError. *)
Lemma handle_reply_callback_raises (self : AsyncRPCServiceProxy)
    (msg_id status : string) (payload : list string) (cb : callback)
    (result : reply) (e : exc_info) :
  _callbacks self !! msg_id = Some cb ->
  snd (reply_result utf8_decode (msg_id :: status :: payload) status self)
  = Returns (Some result) ->
  cb result = Exc e ->
  snd (_handle_reply utf8_decode (msg_id :: status :: payload) self)
  = Raises (AttributeError "'AsyncRemoteMethod' object has no attribute 'error'").
Proof.
  intros Hcb Hresult Hraise.
  rewrite handle_reply_run, Hresult, Hcb.
  unfold invoke, local, log_error, value_getattr. run_monad.
  rewrite Hraise. reflexivity.
Qed.

(** C2, as the code has it. A reply (whose payload decodes) whose call-id
    is registered invokes the callback registered under it and leaves the
    ledger unchanged: a second reply with the same call-id finds the same
    entry and invokes the callback again. *)
Theorem handle_reply_keeps_callback (self : AsyncRPCServiceProxy)
    (msg_id status : string) (payload : list string) (cb : callback) (result : reply) :
  _callbacks self !! msg_id = Some cb ->
  snd (reply_result utf8_decode (msg_id :: status :: payload) status self)
  = Returns (Some result) ->
  let first := fst (_handle_reply utf8_decode (msg_id :: status :: payload) self) in
  let second := fst (_handle_reply utf8_decode (msg_id :: status :: payload) first) in
  _callbacks first = _callbacks self
  /\ called first = called self ++ [(msg_id, result)]
  /\ _callbacks second = _callbacks self
  /\ called second = called self ++ [(msg_id, result); (msg_id, result)].
Proof.
  intros Hcb Hresult first second.
  assert (Hfirst : first = mkAsyncRPCServiceProxy (base self) (stream self)
                             (_callbacks self) (called self ++ [(msg_id, result)]))
    by (apply handle_reply_registered with (cb := cb); assumption).
  assert (Hsecond : second = mkAsyncRPCServiceProxy (base first) (stream first)
                               (_callbacks first) (called first ++ [(msg_id, result)])).
  { apply handle_reply_registered with (cb := cb).
    - rewrite Hfirst. exact Hcb.
    - rewrite <- Hresult. apply reply_result_base. rewrite Hfirst. reflexivity. }
  rewrite Hsecond, Hfirst. simpl. rewrite <- app_assoc.
  repeat split; reflexivity.
Qed.

(** A reply whose call-id is not in the ledger invokes no callback and
    leaves the proxy as it was, whatever its payload; once its payload is
    decoded, [_handle_reply] returns without an error. *)
Lemma handle_reply_unknown_cases (self : AsyncRPCServiceProxy)
    (msg_id status : string) (payload : list string) :
  _callbacks self !! msg_id = None ->
  let r := _handle_reply utf8_decode (msg_id :: status :: payload) self in
  called (fst r) = called self
  /\ fst r = self
  /\ forall result,
       snd (reply_result utf8_decode (msg_id :: status :: payload) status self)
       = Returns result ->
       snd r = Returns tt.
Proof.
  intros Hcb r. subst r.
  rewrite handle_reply_run, Hcb.
  destruct (snd (reply_result utf8_decode (msg_id :: status :: payload) status self));
    (split; [reflexivity | split; [reflexivity |]]); intros; simpl;
    try reflexivity; discriminate.
Qed.

(** C9. A reply (whose payload decodes) whose call-id has no entry in the
    ledger is dropped: [_handle_reply] returns without an error, no callback
    is invoked and the proxy is as it was. *)
Theorem handle_reply_unknown_call_id (self : AsyncRPCServiceProxy)
    (msg_id status : string) (payload : list string) (result : option reply) :
  _callbacks self !! msg_id = None ->
  snd (reply_result utf8_decode (msg_id :: status :: payload) status self)
  = Returns result ->
  _handle_reply utf8_decode (msg_id :: status :: payload) self = (self, Returns tt)
  /\ called (fst (_handle_reply utf8_decode (msg_id :: status :: payload) self))
     = called self.
Proof.
  intros Hcb Hresult.
  destruct (handle_reply_unknown_cases self msg_id status payload Hcb)
    as (Hcalled & Hstate & Hret).
  specialize (Hret result Hresult).
  split; [| exact Hcalled].
  destruct (_handle_reply utf8_decode (msg_id :: status :: payload) self)
    as [self' out]; simpl in *; subst; reflexivity.
Qed.

End AsyncProxyFacts.

(** ** The synchronous proxy *)

Section SyncProxyFacts.

Import SyncProxy.

Variable utf8_decode : string -> option unicode.

Lemma sync_ready_true (self : RPCServiceProxy) :
  truth (getattr self "_ready") = true.
Proof. reflexivity. Qed.

Lemma read_reply_pure (msg_list : list string) (self : RPCServiceProxy) :
  fst (read_reply utf8_decode msg_list self) = self.
Proof.
  unfold read_reply, index, _deserialize, decode. run_monad.
  destruct_reads utf8_decode; try reflexivity;
    repeat case_bool_decide; run_monad; destruct_reads utf8_decode; reflexivity.
Qed.

(** [call], once its arguments are serialized: the request is sent, then
    the reply is awaited and read. *)
Lemma call_run (self : RPCServiceProxy) (uuid4 method : string)
    (args : list pyobj) (kwargs : list (string * pyobj)) (pargs pkwargs : string) :
  _serializer (base self) (PyTuple args) = Ok pargs ->
  _serializer (base self) (PyDict kwargs) = Ok pkwargs ->
  call utf8_decode uuid4 method args kwargs self
  = (msg_list <-- recv_multipart ;; read_reply utf8_decode msg_list)
      (after_request self [(uuid4, SNDMORE); (method, SNDMORE);
                           (pargs, SNDMORE); (pkwargs, NOFLAGS)]).
Proof.
  intros Hargs Hkwargs.
  unfold call, _serialize, socket_send. run_monad.
  rewrite Hargs. run_monad. rewrite Hkwargs. run_monad.
  unfold after_request. repeat rewrite <- app_assoc. reflexivity.
Qed.

(** The request frames are in the log of the socket whatever comes back. *)
Lemma call_sent (self : RPCServiceProxy) (uuid4 method : string)
    (args : list pyobj) (kwargs : list (string * pyobj)) (pargs pkwargs : string) :
  _serializer (base self) (PyTuple args) = Ok pargs ->
  _serializer (base self) (PyDict kwargs) = Ok pkwargs ->
  sent (socket (fst (call utf8_decode uuid4 method args kwargs self)))
  = sent (socket self) ++ [(uuid4, SNDMORE); (method, SNDMORE);
                           (pargs, SNDMORE); (pkwargs, NOFLAGS)].
Proof.
  intros Hargs Hkwargs.
  rewrite (call_run _ _ _ _ _ _ _ Hargs Hkwargs).
  unfold recv_multipart, after_request. run_monad.
  destruct (inbox (socket self) ++ _) as [| msg rest]; [reflexivity |].
  match goal with
  | |- context [read_reply utf8_decode msg ?s] =>
      pose proof (read_reply_pure msg s) as Hpure;
      destruct (read_reply utf8_decode msg s) as [s' [? | ? |]]
  end; simpl in *; subst; reflexivity.
Qed.

End SyncProxyFacts.

(** ** The wire *)

(** The request frames of the asynchronous proxy. *)
Lemma async_call_sent (self : AsyncProxy.AsyncRPCServiceProxy) (uuid4 method : string)
    (cb : AsyncProxy.callback) (args : list pyobj) (kwargs : list (string * pyobj))
    (pargs pkwargs : string) :
  _serializer (AsyncProxy.base self) (PyTuple args) = Ok pargs ->
  _serializer (AsyncProxy.base self) (PyDict kwargs) = Ok pkwargs ->
  AsyncProxy.call uuid4 method cb args kwargs self
  = (AsyncProxy.mkAsyncRPCServiceProxy (AsyncProxy.base self)
       (AsyncProxy.stream self ++ [(uuid4, SNDMORE); (method, SNDMORE);
                                   (pargs, SNDMORE); (pkwargs, NOFLAGS)])
       (<[uuid4 := cb]> (AsyncProxy._callbacks self)) (AsyncProxy.called self),
     Returns tt).
Proof.
  intros Hargs Hkwargs.
  unfold AsyncProxy.call, AsyncProxy._serialize, AsyncProxy.stream_send,
    AsyncProxy.set_callback.
  run_monad. rewrite Hargs. run_monad. rewrite Hkwargs. run_monad.
  repeat rewrite <- app_assoc. reflexivity.
Qed.

(** X25. The frames on the wire. Both proxies send a request as
    [call-id, method, args blob, kwargs blob] in one multipart message; the
    service answers [ident, call-id, "SUCCESS", result blob] when the method
    returns a result that serializes, and [ident, call-id, "FAILURE",
    name, message, trace], the last three encoded as UTF-8, when the method
    or the serializer raises an exception whose three texts convert to
    unicode. *)
Theorem wire_layouts (utf8_encode : unicode -> string)
    (utf8_decode : string -> option unicode) :
  (forall (self : AsyncProxy.AsyncRPCServiceProxy) uuid4 method cb args kwargs
          pargs pkwargs,
      _serializer (AsyncProxy.base self) (PyTuple args) = Ok pargs ->
      _serializer (AsyncProxy.base self) (PyDict kwargs) = Ok pkwargs ->
      AsyncProxy.stream (fst (AsyncProxy.call uuid4 method cb args kwargs self))
      = AsyncProxy.stream self ++ [(uuid4, SNDMORE); (method, SNDMORE);
                                   (pargs, SNDMORE); (pkwargs, NOFLAGS)])
  /\ (forall (self : SyncProxy.RPCServiceProxy) uuid4 method args kwargs
             pargs pkwargs,
      _serializer (SyncProxy.base self) (PyTuple args) = Ok pargs ->
      _serializer (SyncProxy.base self) (PyDict kwargs) = Ok pkwargs ->
      SyncProxy.sent (SyncProxy.socket
                        (fst (SyncProxy.call utf8_decode uuid4 method args kwargs self)))
      = SyncProxy.sent (SyncProxy.socket self)
          ++ [(uuid4, SNDMORE); (method, SNDMORE); (pargs, SNDMORE); (pkwargs, NOFLAGS)])
  /\ (forall (self : Service.RPCService) ident msg_id method pargs pkwargs rest
             args kwargs body r presult,
      _deserializer (Service.base self) pargs = Ok args ->
      _deserializer (Service.base self) pkwargs = Ok kwargs ->
      Service.getattr (Service.receiving ident msg_id self) method
      = Some (Service.UserMethod true body) ->
      body args kwargs = Ok r ->
      _serializer (Service.base self) r = Ok presult ->
      Service.stream
        (fst (Service._handle_request utf8_encode
                (router_recv ident [msg_id; method; pargs; pkwargs] ++ rest) self))
      = Service.stream self ++ [(ident, SNDMORE); (msg_id, SNDMORE);
                                ("SUCCESS", SNDMORE); (presult, NOFLAGS)])
  /\ (forall (self : Service.RPCService) ident msg_id method pargs pkwargs rest
             args kwargs body (ename evalue tb : unicode),
      _deserializer (Service.base self) pargs = Ok args ->
      _deserializer (Service.base self) pkwargs = Ok kwargs ->
      Service.getattr (Service.receiving ident msg_id self) method
      = Some (Service.UserMethod true body) ->
      (body args kwargs = Exc (ExcInfo ename evalue tb)
       \/ exists r, body args kwargs = Ok r
                    /\ _serializer (Service.base self) r = Exc (ExcInfo ename evalue tb)) ->
      Service.stream
        (fst (Service._handle_request utf8_encode
                (router_recv ident [msg_id; method; pargs; pkwargs] ++ rest) self))
      = Service.stream self ++ [(ident, SNDMORE); (msg_id, SNDMORE);
                                ("FAILURE", SNDMORE);
                                (utf8_encode ename, SNDMORE);
                                (utf8_encode evalue, SNDMORE);
                                (utf8_encode tb, NOFLAGS)]).
Proof.
  repeat split.
  - intros self uuid4 method cb args kwargs pargs pkwargs Hargs Hkwargs.
    rewrite (async_call_sent _ _ _ _ _ _ _ _ Hargs Hkwargs). reflexivity.
  - intros self uuid4 method args kwargs pargs pkwargs Hargs Hkwargs.
    apply call_sent; assumption.
  - intros self ident msg_id method pargs pkwargs rest args kwargs body r presult
      Hargs Hkwargs Hget Hbody Hser.
    destruct (handle_request_success utf8_encode self ident msg_id method pargs
                pkwargs rest args kwargs body r presult Hargs Hkwargs Hget Hbody Hser)
      as (self' & Hrun & Hstream & _).
    simpl. rewrite Hrun. exact Hstream.
  - intros self ident msg_id method pargs pkwargs rest args kwargs body
      ename evalue tb Hargs Hkwargs Hget Hraise.
    destruct (handle_request_failure utf8_encode self ident msg_id method pargs
                pkwargs rest args kwargs body ename evalue tb
                Hargs Hkwargs Hget Hraise)
      as (self' & Hrun & Hstream & _).
    simpl. rewrite Hrun. exact Hstream.
Qed.

(** ** Echo, end to end *)

Section EchoFacts.

Variable serializer : pyobj -> result string.
Variable deserializer : string -> result pyobj.
Variable utf8_encode : unicode -> string.
Variable utf8_decode : string -> option unicode.

Hypothesis roundtrip :
  forall x, exists b, serializer x = Ok b /\ deserializer b = Ok x.

(** [proxy.echo(s)] through a connected Echo service gives [s] back. *)
Lemma echo_roundtrip (identity uuid4 url : string) (s : pyobj) :
  let svc := Service.bind_url url (Echo.Echo serializer deserializer) in
  let proxy := SyncProxy.connect_url url
                 (SyncProxy.RPCServiceProxy__init__ serializer deserializer
                    (served_by utf8_encode svc identity)) in
  snd (SyncProxy.RemoteMethod__call__ utf8_decode "echo" uuid4 [s] [] proxy)
  = Returns s.
Proof.
  intros svc proxy.
  destruct (roundtrip (PyTuple [s])) as (pargs & Hsargs & Hdargs).
  destruct (roundtrip (PyDict [])) as (pkwargs & Hskw & Hdkw).
  destruct (roundtrip s) as (presult & Hsres & Hdres).
  unfold SyncProxy.RemoteMethod__call__.
  rewrite (call_run utf8_decode proxy uuid4 "echo" [s] [] pargs pkwargs Hsargs Hskw).
  destruct (handle_request_success utf8_encode svc identity uuid4 "echo" pargs
              pkwargs [] (PyTuple [s]) (PyDict []) Echo.echo s presult)
    as (svc' & Hrun & Hstream & _); try assumption; try reflexivity.
  unfold SyncProxy.after_request, SyncProxy.recv_multipart. run_monad.
  unfold served_by, router_recv. rewrite Hrun. simpl. rewrite Hstream. simpl.
  rewrite bool_decide_eq_true_2 by reflexivity. simpl.
  unfold SyncProxy.read_reply, index, SyncProxy._deserialize. run_monad.
  rewrite Hdres. reflexivity.
Qed.

(** The same call in full: what the service answers to the request, and
    the proxy once [call] has returned. *)
Lemma echo_call_run (identity uuid4 url : string) (s : pyobj)
    (pargs pkwargs presult : string) :
  serializer (PyTuple [s]) = Ok pargs ->
  deserializer pargs = Ok (PyTuple [s]) ->
  serializer (PyDict []) = Ok pkwargs ->
  deserializer pkwargs = Ok (PyDict []) ->
  serializer s = Ok presult ->
  deserializer presult = Ok s ->
  let svc := Service.bind_url url (Echo.Echo serializer deserializer) in
  let proxy := SyncProxy.connect_url url
                 (SyncProxy.RPCServiceProxy__init__ serializer deserializer
                    (served_by utf8_encode svc identity)) in
  served_by utf8_encode svc identity [uuid4; "echo"; pargs; pkwargs]
  = [[uuid4; "SUCCESS"; presult]]
  /\ SyncProxy.RemoteMethod__call__ utf8_decode "echo" uuid4 [s] [] proxy
     = (SyncProxy.mkRPCServiceProxy (SyncProxy.base proxy)
          (SyncProxy.mkDealerSocket
             [(uuid4, SNDMORE); ("echo", SNDMORE); (pargs, SNDMORE); (pkwargs, NOFLAGS)]
             [] (served_by utf8_encode svc identity)),
        Returns s).
Proof.
  intros Hsargs Hdargs Hskw Hdkw Hsres Hdres svc proxy.
  destruct (handle_request_success utf8_encode svc identity uuid4 "echo" pargs
              pkwargs [] (PyTuple [s]) (PyDict []) Echo.echo s presult)
    as (svc' & Hrun & Hstream & _); try assumption; try reflexivity.
  assert (Hserved : served_by utf8_encode svc identity [uuid4; "echo"; pargs; pkwargs]
                    = [[uuid4; "SUCCESS"; presult]]).
  { unfold served_by, router_recv. rewrite Hrun. simpl. rewrite Hstream. simpl.
    rewrite bool_decide_eq_true_2 by reflexivity. reflexivity. }
  split; [exact Hserved |].
  unfold SyncProxy.RemoteMethod__call__.
  rewrite (call_run utf8_decode proxy uuid4 "echo" [s] [] pargs pkwargs Hsargs Hskw).
  unfold SyncProxy.after_request, SyncProxy.recv_multipart. run_monad.
  rewrite Hserved. simpl.
  unfold SyncProxy.read_reply, index, SyncProxy._deserialize. run_monad.
  rewrite Hdres. reflexivity.
Qed.

End EchoFacts.

(** ** The concrete codec is a codec *)

Section SimpleCodecFacts.

Import SimpleCodec.

Lemma dec_nat_enc (n : nat) (rest : list ascii) :
  dec_nat (enc_nat n ++ rest) = Some (n, rest).
Proof.
  unfold enc_nat. induction n as [| n IH]; simpl; [reflexivity |].
  simpl in IH. rewrite IH. reflexivity.
Qed.

Lemma dec_Z_enc (z : Z) (rest : list ascii) :
  dec_Z (enc_Z z ++ rest) = Some (z, rest).
Proof.
  unfold enc_Z, dec_Z. destruct (Z.ltb_spec z 0); simpl;
    rewrite dec_nat_enc; do 2 f_equal; lia.
Qed.

Lemma length_list_ascii_of_string (s : string) :
  length (list_ascii_of_string s) = String.length s.
Proof. induction s as [| c s IH]; simpl; [reflexivity | rewrite IH; reflexivity]. Qed.

Lemma dec_str_enc (s : string) (rest : list ascii) :
  dec_str (enc_str s ++ rest) = Some (s, rest).
Proof.
  unfold dec_str, enc_str. rewrite <- app_assoc, dec_nat_enc.
  rewrite <- length_list_ascii_of_string.
  assert (Hle : (length (list_ascii_of_string s)
                 <=? length (list_ascii_of_string s ++ rest))%nat = true)
    by (apply Nat.leb_le; rewrite length_app; lia).
  rewrite Hle, take_app_length, drop_app_length, string_of_list_ascii_of_string.
  reflexivity.
Qed.

Lemma dec_seq_enc {A} (d : list ascii -> option (A * list ascii))
    (e : A -> list ascii) (items : list A) (rest : list ascii) :
  Forall (fun a => forall rest', d (e a ++ rest') = Some (a, rest')) items ->
  dec_seq d (length items) (flat_map e items ++ rest) = Some (items, rest).
Proof.
  induction 1 as [| a items Ha _ IH]; simpl; [reflexivity |].
  rewrite <- app_assoc, Ha, IH. reflexivity.
Qed.

Lemma length_flat_map_elem {A} (e : A -> list ascii) (items : list A) (a : A) :
  a ∈ items -> length (e a) <= length (flat_map e items).
Proof.
  induction 1 as [a items | a b items _ IH]; simpl; rewrite length_app; lia.
Qed.

Lemma dec_enc (o : pyobj) :
  forall fuel rest, length (enc o) <= fuel -> dec fuel (enc o ++ rest) = Some (o, rest).
Proof.
  induction o as [| b | z | s | items IH | items IH] using pyobj_ind;
    intros [| fuel] rest Hfuel; cbn [enc length] in Hfuel; try lia;
    cbn [enc app dec].
  - reflexivity.
  - destruct b; reflexivity.
  - rewrite dec_Z_enc. reflexivity.
  - rewrite dec_str_enc. reflexivity.
  - rewrite <- app_assoc, dec_nat_enc.
    rewrite length_app in Hfuel.
    rewrite (dec_seq_enc (dec fuel) enc); [reflexivity |].
    rewrite Forall_forall in IH |- *. intros a Ha rest'.
    apply IH; [exact Ha |].
    pose proof (length_flat_map_elem enc items a Ha). lia.
  - rewrite <- app_assoc, dec_nat_enc.
    rewrite length_app in Hfuel.
    rewrite (dec_seq_enc (dec_entry (dec fuel))
               (fun kv => enc_str (fst kv) ++ enc (snd kv))); [reflexivity |].
    rewrite Forall_forall in IH |- *. intros [k v] Hkv rest'.
    unfold dec_entry. cbn [fst snd]. rewrite <- app_assoc, dec_str_enc.
    rewrite (IH (k, v) Hkv); [reflexivity |].
    pose proof (length_flat_map_elem
                  (fun kv => enc_str (fst kv) ++ enc (snd kv)) items (k, v) Hkv) as Hlen.
    cbn [fst snd] in Hlen |- *. rewrite length_app in Hlen. lia.
Qed.

(** [loads (dumps o) = o], for every object. *)
Lemma loads_dumps (o : pyobj) :
  exists b, dumps o = Ok b /\ loads b = Ok o.
Proof.
  eexists; split; [reflexivity |].
  unfold loads. rewrite list_ascii_of_string_of_list_ascii.
  pose proof (dec_enc o (String.length (string_of_list_ascii (enc o))) []) as Hdec.
  rewrite app_nil_r in Hdec. rewrite Hdec; [reflexivity |].
  rewrite <- length_list_ascii_of_string, list_ascii_of_string_of_list_ascii. lia.
Qed.

End SimpleCodecFacts.

(** ** The claims on concrete runs *)

(** C6. With a codec for which deserializing what was serialized gives the
    object back, [proxy.echo("hello")] on a synchronous proxy connected to
    the Echo service returns "hello", through the encode/decode cycle of the
    dispatcher: [RemoteMethod.__call__] and [RPCServiceProxy.call] serialize
    the arguments and send the request; under the ROUTER envelope that
    request makes [RPCService._handle_request] call [echo] once with the
    deserialized arguments and send one SUCCESS reply with the serialized
    result; that reply reaches the proxy, which takes it from its socket,
    deserializes its blob and returns "hello". *)
Theorem echo_hello (serializer : pyobj -> result string)
    (deserializer : string -> result pyobj)
    (utf8_encode : unicode -> string) (utf8_decode : string -> option unicode)
    (identity uuid4 url : string) :
  (forall x, exists b, serializer x = Ok b /\ deserializer b = Ok x) ->
  let svc := Service.bind_url url (Echo.Echo serializer deserializer) in
  let proxy := SyncProxy.connect_url url
                 (SyncProxy.RPCServiceProxy__init__ serializer deserializer
                    (served_by utf8_encode svc identity)) in
  let r := SyncProxy.RemoteMethod__call__ utf8_decode "echo" uuid4
             [PyStr "hello"] [] proxy in
  exists pargs pkwargs presult,
    serializer (PyTuple [PyStr "hello"]) = Ok pargs
    /\ serializer (PyDict []) = Ok pkwargs
    /\ SyncProxy.sent (SyncProxy.socket (fst r))
       = [(uuid4, SNDMORE); ("echo", SNDMORE); (pargs, SNDMORE); (pkwargs, NOFLAGS)]
    /\ (let served := Service._handle_request utf8_encode
                         (router_recv identity [uuid4; "echo"; pargs; pkwargs]) svc in
        snd served = Returns tt
        /\ Service.called (fst served) = [("echo", PyTuple [PyStr "hello"], PyDict [])]
        /\ Service.stream (fst served)
           = [(identity, SNDMORE); (uuid4, SNDMORE); ("SUCCESS", SNDMORE);
              (presult, NOFLAGS)])
    /\ serializer (PyStr "hello") = Ok presult
    /\ SyncProxy.peer (SyncProxy.socket proxy) [uuid4; "echo"; pargs; pkwargs]
       = [[uuid4; "SUCCESS"; presult]]
    /\ SyncProxy.inbox (SyncProxy.socket (fst r)) = []
    /\ deserializer presult = Ok (PyStr "hello")
    /\ snd r = Returns (PyStr "hello").
Proof.
  intros Hroundtrip svc proxy r.
  destruct (Hroundtrip (PyTuple [PyStr "hello"])) as (pargs & Hsargs & Hdargs).
  destruct (Hroundtrip (PyDict [])) as (pkwargs & Hskw & Hdkw).
  destruct (Hroundtrip (PyStr "hello")) as (presult & Hsres & Hdres).
  destruct (echo_call_run serializer deserializer utf8_encode utf8_decode
              identity uuid4 url (PyStr "hello") pargs pkwargs presult
              Hsargs Hdargs Hskw Hdkw Hsres Hdres) as (Hserved & Hcall).
  destruct (handle_request_success utf8_encode svc identity uuid4 "echo" pargs
              pkwargs [] (PyTuple [PyStr "hello"]) (PyDict []) Echo.echo
              (PyStr "hello") presult)
    as (svc' & Hrun & Hstream & Hcalled); try assumption; try reflexivity.
  exists pargs, pkwargs, presult.
  subst r. fold svc in Hcall. fold proxy in Hcall. rewrite Hcall.
  unfold router_recv. rewrite Hrun. simpl.
  repeat split; try assumption.
Qed.

Lemma echo_hello_witness :
  let svc := Service.bind_url "tcp://127.0.0.1:5555"
               (Echo.Echo SimpleCodec.dumps SimpleCodec.loads) in
  let proxy := SyncProxy.connect_url "tcp://127.0.0.1:5555"
                 (SyncProxy.RPCServiceProxy__init__ SimpleCodec.dumps SimpleCodec.loads
                    (served_by AsciiText.encode svc "peer")) in
  let r := SyncProxy.RemoteMethod__call__ AsciiText.decode "echo" "id-1"
             [PyStr "hello"] [] proxy in
  exists pargs pkwargs presult,
    SimpleCodec.dumps (PyTuple [PyStr "hello"]) = Ok pargs
    /\ SimpleCodec.dumps (PyDict []) = Ok pkwargs
    /\ SyncProxy.sent (SyncProxy.socket (fst r))
       = [("id-1", SNDMORE); ("echo", SNDMORE); (pargs, SNDMORE); (pkwargs, NOFLAGS)]
    /\ (let served := Service._handle_request AsciiText.encode
                         (router_recv "peer" ["id-1"; "echo"; pargs; pkwargs]) svc in
        snd served = Returns tt
        /\ Service.called (fst served) = [("echo", PyTuple [PyStr "hello"], PyDict [])]
        /\ Service.stream (fst served)
           = [("peer", SNDMORE); ("id-1", SNDMORE); ("SUCCESS", SNDMORE);
              (presult, NOFLAGS)])
    /\ SimpleCodec.dumps (PyStr "hello") = Ok presult
    /\ SyncProxy.peer (SyncProxy.socket proxy) ["id-1"; "echo"; pargs; pkwargs]
       = [["id-1"; "SUCCESS"; presult]]
    /\ SyncProxy.inbox (SyncProxy.socket (fst r)) = []
    /\ SimpleCodec.loads presult = Ok (PyStr "hello")
    /\ snd r = Returns (PyStr "hello").
Proof.
  apply (echo_hello SimpleCodec.dumps SimpleCodec.loads AsciiText.encode
           AsciiText.decode "peer" "id-1" "tcp://127.0.0.1:5555").
  exact loads_dumps.
Defined.

(** C1, on the code. Neither proxy was bound or connected; [call] raises
    no RuntimeError. The asynchronous proxy hands the four request frames to
    its stream, registers the callback and returns; the synchronous proxy
    hands them to its socket and waits for a reply. *)
Theorem call_before_bind_or_connect :
  let fresh_async :=
    AsyncProxy.AsyncRPCServiceProxy__init__ SimpleCodec.dumps SimpleCodec.loads in
  let fresh_sync :=
    SyncProxy.RPCServiceProxy__init__ SimpleCodec.dumps SimpleCodec.loads (fun _ => []) in
  let ra := AsyncProxy.call "id-1" "echo" Echo.accept [PyStr "hi"] [] fresh_async in
  let rs := SyncProxy.call AsciiText.decode "id-1" "echo" [PyStr "hi"] [] fresh_sync in
  urls (AsyncProxy.base fresh_async) = []
  /\ endpoints (AsyncProxy.base fresh_async) = []
  /\ snd ra = Returns tt
  /\ AsyncProxy.stream (fst ra)
     = [("id-1", SNDMORE); ("echo", SNDMORE); ("T10S110hi", SNDMORE); ("D0", NOFLAGS)]
  /\ AsyncProxy._callbacks (fst ra) !! "id-1" = Some Echo.accept
  /\ urls (SyncProxy.base fresh_sync) = []
  /\ endpoints (SyncProxy.base fresh_sync) = []
  /\ snd rs = Blocks
  /\ SyncProxy.sent (SyncProxy.socket (fst rs))
     = [("id-1", SNDMORE); ("echo", SNDMORE); ("T10S110hi", SNDMORE); ("D0", NOFLAGS)].
Proof. vm_compute. repeat split; reflexivity. Qed.

(** C3, on the code. The Echo service answers a call of [fail] with a
    FAILURE reply whose last frame is the formatted trace; the error the
    synchronous proxy raises has the name and the message of the reply, and
    the message again where the trace should be. *)
Theorem sync_call_failure_traceback :
  let svc := Service.bind_url "tcp://127.0.0.1:5555"
               (Echo.Echo SimpleCodec.dumps SimpleCodec.loads) in
  let peer := served_by AsciiText.encode svc "peer" in
  let proxy := SyncProxy.connect_url "tcp://127.0.0.1:5555"
                 (SyncProxy.RPCServiceProxy__init__ SimpleCodec.dumps SimpleCodec.loads
                    peer) in
  peer ["id-1"; "fail"; "T0"; "D0"]
  = [["id-1"; "FAILURE"; "ValueError"; "bad input";
      "Traceback (most recent call last): ValueError"]]
  /\ snd (SyncProxy.call AsciiText.decode "id-1" "fail" [] [] proxy)
     = Raises (Remote (RemoteRPCError__init__ (u "ValueError") (u "bad input")
                         (u "bad input")))
  /\ AsciiText.decode "Traceback (most recent call last): ValueError"
     <> Some (u "bad input").
Proof. vm_compute. repeat split; try reflexivity. discriminate. Qed.

(** C5, on the code. The callback registered for "id-1" raises when the
    reply arrives; [_handle_reply] catches that, and then raises
    AttributeError from its [except] clause. *)
Theorem handle_reply_callback_error_propagates :
  let proxy :=
    fst (AsyncProxy.call "id-1" "echo" Echo.reject [PyStr "hi"] []
           (AsyncProxy.connect_url "tcp://127.0.0.1:5555"
              (AsyncProxy.AsyncRPCServiceProxy__init__
                 SimpleCodec.dumps SimpleCodec.loads))) in
  let r := AsyncProxy._handle_reply AsciiText.decode ["id-1"; "SUCCESS"; "S110hi"] proxy in
  AsyncProxy._callbacks proxy !! "id-1" = Some Echo.reject
  /\ Echo.reject (AsyncProxy.Value (PyStr "hi")) = Exc (Echo.ValueError "bad callback")
  /\ AsyncProxy.called (fst r) = [("id-1", AsyncProxy.Value (PyStr "hi"))]
  /\ snd r = Raises (AttributeError "'AsyncRemoteMethod' object has no attribute 'error'").
Proof. vm_compute. repeat split; reflexivity. Qed.

(** C4, on the code. [cafe] is exposed and raises ValueError('caf\xc3\xa9').
    [_handle_request] calls it once and enters [_send_error], which sends
    the identity, the call-id, "FAILURE" and the name, all with SNDMORE;
    then [unicode(evalue)] raises UnicodeDecodeError, which leaves
    [_handle_request]: no reply was completed and the exception
    propagates. *)
Theorem handle_request_failure_reply_unfinished :
  let svc := Echo.Cafe SimpleCodec.dumps SimpleCodec.loads in
  let r := Service._handle_request AsciiText.encode
             ["peer"; "id-1"; "cafe"; "T0"; "D0"] svc in
  Service.getattr (Service.receiving "peer" "id-1" svc) "cafe"
  = Some (Service.UserMethod true Echo.cafe)
  /\ Service.called (fst r) = [("cafe", PyTuple [], PyDict [])]
  /\ Service.stream (fst r)
     = [("peer", SNDMORE); ("id-1", SNDMORE); ("FAILURE", SNDMORE);
        ("ValueError", SNDMORE)]
  /\ multiparts (Service.stream (fst r)) = []
  /\ snd r = Raises (UnicodeDecodeError "ascii").
Proof. vm_compute. repeat split; reflexivity. Qed.

(** C8, on the code. [nothing] returns None and the serializer refuses it
    with an error whose message is a byte string that is not ASCII. The
    service sends the identity, the call-id, "FAILURE" and the name, all
    with SNDMORE, and raises: these frames are neither reply layout. The
    message stays open, so the reply to the next request is appended to
    it, and what reaches the wire is one message of eight frames. *)
Theorem wire_failure_reply_unfinished :
  let svc := Echo.Echo Echo.cafe_dumps SimpleCodec.loads in
  let r := Service._handle_request AsciiText.encode
             (router_recv "peer" ["id-1"; "nothing"; "T0"; "D0"]) svc in
  let r' := Service._handle_request AsciiText.encode
              (router_recv "peer" ["id-2"; "echo"; "T10S110hi"; "D0"]) (fst r) in
  Service.stream (fst r)
  = [("peer", SNDMORE); ("id-1", SNDMORE); ("FAILURE", SNDMORE); ("TypeError", SNDMORE)]
  /\ multiparts (Service.stream (fst r)) = []
  /\ snd r = Raises (UnicodeDecodeError "ascii")
  /\ snd r' = Returns tt
  /\ multiparts (Service.stream (fst r'))
     = [["peer"; "id-1"; "FAILURE"; "TypeError";
         "peer"; "id-2"; "SUCCESS"; "S110hi"]].
Proof. vm_compute. repeat split; reflexivity. Qed.

(** C2 fails on the code: after the reply for "id-1" was handled, the entry
    is still in the ledger, and a second reply with the same call-id invokes
    the callback a second time. *)
Lemma second_reply_invokes_callback_again :
  let proxy :=
    fst (AsyncProxy.call "id-1" "echo" Echo.accept [PyStr "hi"] []
           (AsyncProxy.connect_url "tcp://127.0.0.1:5555"
              (AsyncProxy.AsyncRPCServiceProxy__init__
                 SimpleCodec.dumps SimpleCodec.loads))) in
  let msg_list := ["id-1"; "SUCCESS"; "S110hi"] in
  let first := fst (AsyncProxy._handle_reply AsciiText.decode msg_list proxy) in
  let second := fst (AsyncProxy._handle_reply AsciiText.decode msg_list first) in
  AsyncProxy._callbacks proxy !! "id-1" = Some Echo.accept
  /\ AsyncProxy._callbacks first !! "id-1" <> None
  /\ AsyncProxy.called first = [("id-1", AsyncProxy.Value (PyStr "hi"))]
  /\ AsyncProxy.called second
     = [("id-1", AsyncProxy.Value (PyStr "hi")); ("id-1", AsyncProxy.Value (PyStr "hi"))].
Proof. vm_compute. repeat split; try reflexivity. discriminate. Qed.

(** ** The theorems at concrete inputs *)

(** [fail] raises ValueError("bad input"). *)
Lemma handle_request_failure_reply_witness :
  exists self',
    Service._handle_request AsciiText.encode ["peer"; "id-1"; "fail"; "T0"; "D0"]
      (Echo.Echo SimpleCodec.dumps SimpleCodec.loads)
    = (self', Returns tt)
    /\ Service.stream self'
       = Service.stream (Echo.Echo SimpleCodec.dumps SimpleCodec.loads)
         ++ [("peer", SNDMORE); ("id-1", SNDMORE); ("FAILURE", SNDMORE);
             (AsciiText.encode (u "ValueError"), SNDMORE);
             (AsciiText.encode (u "bad input"), SNDMORE);
             (AsciiText.encode (u "Traceback (most recent call last): ValueError"),
              NOFLAGS)]
    /\ Service.called self'
       = Service.called (Echo.Echo SimpleCodec.dumps SimpleCodec.loads)
         ++ [("fail", PyTuple [], PyDict [])].
Proof.
  apply (handle_request_failure_reply AsciiText.encode
           (Echo.Echo SimpleCodec.dumps SimpleCodec.loads)
           "peer" "id-1" "fail" "T0" "D0" [] (PyTuple []) (PyDict [])
           Echo.fail (u "ValueError") (u "bad input")
           (u "Traceback (most recent call last): ValueError")).
  - vm_compute. reflexivity.
  - vm_compute. reflexivity.
  - vm_compute. reflexivity.
  - left. reflexivity.
Defined.

(** [nothing] returns None, which [strict_dumps] refuses: the reply is a
    FAILURE carrying the TypeError of the serializer. *)
Example handle_request_serializer_refuses :
  let r := Service._handle_request AsciiText.encode
             ["peer"; "id-1"; "nothing"; "T0"; "D0"]
             (Echo.Echo Echo.strict_dumps SimpleCodec.loads) in
  snd r = Returns tt
  /\ multiparts (Service.stream (fst r))
     = [["peer"; "id-1"; "FAILURE"; "TypeError"; "None is not serializable";
         "Traceback (most recent call last): TypeError"]].
Proof. vm_compute. split; reflexivity. Qed.

(** [secret] is a method of the service that [rpc_method] does not mark. *)
Lemma handle_request_unknown_method_witness :
  exists self',
    Service._handle_request AsciiText.encode ["peer"; "id-1"; "secret"; "T0"; "D0"]
      (Echo.Echo SimpleCodec.dumps SimpleCodec.loads)
    = (self', Returns tt)
    /\ Service.logged self'
       = Service.logged (Echo.Echo SimpleCodec.dumps SimpleCodec.loads)
         ++ ["Unknown RPC method: " +:+ "secret"]
    /\ Service.stream self'
       = Service.stream (Echo.Echo SimpleCodec.dumps SimpleCodec.loads)
    /\ Service.called self'
       = Service.called (Echo.Echo SimpleCodec.dumps SimpleCodec.loads).
Proof.
  apply (handle_request_unknown_method AsciiText.encode
           (Echo.Echo SimpleCodec.dumps SimpleCodec.loads)
           "peer" "id-1" "secret" "T0" "D0" [] (PyTuple []) (PyDict [])).
  - vm_compute. reflexivity.
  - vm_compute. reflexivity.
  - right. exists (Service.UserMethod false Echo.echo).
    split; vm_compute; reflexivity.
Defined.

(** "garbage" is no output of [dumps]. *)
Lemma handle_request_deserialize_error_witness :
  exists self',
    Service._handle_request AsciiText.encode
      ["peer"; "id-1"; "echo"; "garbage"; "D0"]
      (Echo.Echo SimpleCodec.dumps SimpleCodec.loads)
    = (self', Raises (Foreign (ExcInfo (u "ValueError") (u "malformed data")
                                       (u "Traceback: loads"))))
    /\ Service.stream self'
       = Service.stream (Echo.Echo SimpleCodec.dumps SimpleCodec.loads)
    /\ Service.called self'
       = Service.called (Echo.Echo SimpleCodec.dumps SimpleCodec.loads)
    /\ Service.logged self'
       = Service.logged (Echo.Echo SimpleCodec.dumps SimpleCodec.loads).
Proof.
  apply (handle_request_deserialize_error AsciiText.encode
           (Echo.Echo SimpleCodec.dumps SimpleCodec.loads)
           "peer" "id-1" "echo" "garbage" "D0" []).
  left. vm_compute. reflexivity.
Defined.

(** A reply for "id-1", registered by [call], delivered twice. *)
Lemma handle_reply_keeps_callback_witness :
  let self :=
    fst (AsyncProxy.call "id-1" "echo" Echo.accept [PyStr "hi"] []
           (AsyncProxy.AsyncRPCServiceProxy__init__
              SimpleCodec.dumps SimpleCodec.loads)) in
  let msg_list := ["id-1"; "SUCCESS"; "S110hi"] in
  let first := fst (AsyncProxy._handle_reply AsciiText.decode msg_list self) in
  let second := fst (AsyncProxy._handle_reply AsciiText.decode msg_list first) in
  AsyncProxy._callbacks first = AsyncProxy._callbacks self
  /\ AsyncProxy.called first
     = AsyncProxy.called self ++ [("id-1", AsyncProxy.Value (PyStr "hi"))]
  /\ AsyncProxy._callbacks second = AsyncProxy._callbacks self
  /\ AsyncProxy.called second
     = AsyncProxy.called self ++ [("id-1", AsyncProxy.Value (PyStr "hi"));
                                  ("id-1", AsyncProxy.Value (PyStr "hi"))].
Proof.
  apply (handle_reply_keeps_callback AsciiText.decode
           (fst (AsyncProxy.call "id-1" "echo" Echo.accept [PyStr "hi"] []
                   (AsyncProxy.AsyncRPCServiceProxy__init__
                      SimpleCodec.dumps SimpleCodec.loads)))
           "id-1" "SUCCESS" ["S110hi"] Echo.accept (AsyncProxy.Value (PyStr "hi"))).
  - vm_compute. reflexivity.
  - vm_compute. reflexivity.
Defined.

(** A reply for "id-2" when only "id-1" is registered. *)
Lemma handle_reply_unknown_call_id_witness :
  let self :=
    fst (AsyncProxy.call "id-1" "echo" Echo.accept [PyStr "hi"] []
           (AsyncProxy.AsyncRPCServiceProxy__init__
              SimpleCodec.dumps SimpleCodec.loads)) in
  AsyncProxy._handle_reply AsciiText.decode ["id-2"; "SUCCESS"; "S110hi"] self
  = (self, Returns tt)
  /\ AsyncProxy.called
       (fst (AsyncProxy._handle_reply AsciiText.decode
               ["id-2"; "SUCCESS"; "S110hi"] self))
     = AsyncProxy.called self.
Proof.
  apply (handle_reply_unknown_call_id AsciiText.decode
           (fst (AsyncProxy.call "id-1" "echo" Echo.accept [PyStr "hi"] []
                   (AsyncProxy.AsyncRPCServiceProxy__init__
                      SimpleCodec.dumps SimpleCodec.loads)))
           "id-2" "SUCCESS" ["S110hi"] (Some (AsyncProxy.Value (PyStr "hi")))).
  - vm_compute. reflexivity.
  - vm_compute. reflexivity.
Defined.

(** The four layouts, on the Echo service and its proxies. *)
Lemma wire_layouts_witness :
  let svc := Echo.Echo SimpleCodec.dumps SimpleCodec.loads in
  AsyncProxy.stream
    (fst (AsyncProxy.call "id-1" "echo" Echo.accept [PyStr "hi"] []
            (AsyncProxy.AsyncRPCServiceProxy__init__
               SimpleCodec.dumps SimpleCodec.loads)))
  = [] ++ [("id-1", SNDMORE); ("echo", SNDMORE); ("T10S110hi", SNDMORE); ("D0", NOFLAGS)]
  /\ SyncProxy.sent
       (SyncProxy.socket
          (fst (SyncProxy.call AsciiText.decode "id-1" "echo" [PyStr "hi"] []
                  (SyncProxy.RPCServiceProxy__init__
                     SimpleCodec.dumps SimpleCodec.loads
                     (served_by AsciiText.encode svc "peer")))))
     = [] ++ [("id-1", SNDMORE); ("echo", SNDMORE); ("T10S110hi", SNDMORE); ("D0", NOFLAGS)]
  /\ Service.stream
       (fst (Service._handle_request AsciiText.encode
               (router_recv "peer" ["id-1"; "echo"; "T10S110hi"; "D0"] ++ []) svc))
     = [] ++ [("peer", SNDMORE); ("id-1", SNDMORE); ("SUCCESS", SNDMORE);
              ("S110hi", NOFLAGS)]
  /\ Service.stream
       (fst (Service._handle_request AsciiText.encode
               (router_recv "peer" ["id-1"; "fail"; "T0"; "D0"] ++ []) svc))
     = [] ++ [("peer", SNDMORE); ("id-1", SNDMORE); ("FAILURE", SNDMORE);
              (AsciiText.encode (u "ValueError"), SNDMORE);
              (AsciiText.encode (u "bad input"), SNDMORE);
              (AsciiText.encode (u "Traceback (most recent call last): ValueError"),
               NOFLAGS)].
Proof.
  intros svc.
  destruct (wire_layouts AsciiText.encode AsciiText.decode)
    as (Hasync & Hsync & Hsuccess & Hfailure).
  split; [| split; [| split]].
  - apply (Hasync (AsyncProxy.AsyncRPCServiceProxy__init__
                     SimpleCodec.dumps SimpleCodec.loads)
             "id-1" "echo" Echo.accept [PyStr "hi"] [] "T10S110hi" "D0");
      vm_compute; reflexivity.
  - apply (Hsync (SyncProxy.RPCServiceProxy__init__
                    SimpleCodec.dumps SimpleCodec.loads
                    (served_by AsciiText.encode svc "peer"))
             "id-1" "echo" [PyStr "hi"] [] "T10S110hi" "D0");
      vm_compute; reflexivity.
  - apply (Hsuccess svc "peer" "id-1" "echo" "T10S110hi" "D0" []
             (PyTuple [PyStr "hi"]) (PyDict []) Echo.echo (PyStr "hi") "S110hi");
      vm_compute; reflexivity.
  - apply (Hfailure svc "peer" "id-1" "fail" "T0" "D0" []
             (PyTuple []) (PyDict []) Echo.fail (u "ValueError") (u "bad input")
             (u "Traceback (most recent call last): ValueError"));
      try (vm_compute; reflexivity).
    left. reflexivity.
Defined.

(** * Further properties of the module *)

(** ** The dispatcher, on every request *)

(** The case of [handle_request_end] in which the request raises. *)
Ltac end_raises :=
  split; [reflexivity | split; [reflexivity |]];
  left; eexists;
  split; [reflexivity | split; [reflexivity | split; reflexivity]].

Section DispatcherCases.

Import Service.

Variable utf8_encode : unicode -> string.

(** A request that reaches an exposed method: the instance afterwards. *)
Lemma handle_request_resolved (self : RPCService)
    (ident msg_id method pargs pkwargs : string) (rest : list string)
    (args kwargs : pyobj) (body : pyobj -> pyobj -> result pyobj) :
  _deserializer (base self) pargs = Ok args ->
  _deserializer (base self) pkwargs = Ok kwargs ->
  getattr (receiving ident msg_id self) method = Some (UserMethod true body) ->
  _handle_request utf8_encode
    (ident :: msg_id :: method :: pargs :: pkwargs :: rest) self
  = (mkRPCService (base self) (methods self) (Some ident) (Some msg_id)
       (stream self ++ (ident, SNDMORE) :: (msg_id, SNDMORE)
                         :: fst (reply_tail utf8_encode self body args kwargs))
       (called self ++ [(method, args, kwargs)]) (logged self),
     snd (reply_tail utf8_encode self body args kwargs)).
Proof.
  intros Hargs Hkwargs Hget.
  rewrite (handle_request_decoded utf8_encode _ _ _ _ _ _ _ _ _ Hargs Hkwargs).
  cbv zeta. rewrite Hget.
  unfold reply_tail, record_call, _serialize, get_attr, stream_send.
  run_monad.
  destruct (body args kwargs) as [r | e]; run_monad;
    [destruct (_serializer (base self) r) as [presult | e]; run_monad |];
    try (erewrite (send_error_run utf8_encode _ ident msg_id) by reflexivity; simpl);
    repeat rewrite <- app_assoc; reflexivity.
Qed.

(** A request that reaches the lookup and finds no exposed method: the
    instance afterwards. *)
Lemma handle_request_dropped (self : RPCService)
    (ident msg_id method pargs pkwargs : string) (rest : list string)
    (args kwargs : pyobj) :
  _deserializer (base self) pargs = Ok args ->
  _deserializer (base self) pkwargs = Ok kwargs ->
  (forall body, getattr (receiving ident msg_id self) method
                <> Some (UserMethod true body)) ->
  _handle_request utf8_encode
    (ident :: msg_id :: method :: pargs :: pkwargs :: rest) self
  = (mkRPCService (base self) (methods self) (Some ident) (Some msg_id)
       (stream self) (called self)
       (logged self ++ ["Unknown RPC method: " +:+ method]),
     Returns tt).
Proof.
  intros Hargs Hkwargs Hget.
  rewrite (handle_request_decoded utf8_encode _ _ _ _ _ _ _ _ _ Hargs Hkwargs).
  cbv zeta.
  destruct (getattr (receiving ident msg_id self) method) as [[[] body | |] |] eqn:Hg;
    try reflexivity.
  exfalso. exact (Hget body eq_refl).
Qed.

(** The three ways a request can end: an exception and no other effect; a
    logged drop; the frames of one reply, finished or not, after one call of
    a method. The codec and the methods of the service stay as they are. *)
Lemma handle_request_end (self : RPCService) (msg_list : list string) :
  let r := _handle_request utf8_encode msg_list self in
  base (fst r) = base self
  /\ methods (fst r) = methods self
  /\ ((exists e, snd r = Raises e
                 /\ stream (fst r) = stream self
                 /\ called (fst r) = called self
                 /\ logged (fst r) = logged self)
      \/ (exists method, msg_list !! 2 = Some method
                         /\ snd r = Returns tt
                         /\ stream (fst r) = stream self
                         /\ called (fst r) = called self
                         /\ logged (fst r)
                            = logged self ++ ["Unknown RPC method: " +:+ method])
      \/ (exists ident msg_id method args kwargs body,
             msg_list !! 0 = Some ident
             /\ msg_list !! 1 = Some msg_id
             /\ msg_list !! 2 = Some method
             /\ getattr (receiving ident msg_id self) method
                = Some (UserMethod true body)
             /\ snd r = snd (reply_tail utf8_encode self body args kwargs)
             /\ stream (fst r)
                = stream self ++ (ident, SNDMORE) :: (msg_id, SNDMORE)
                                   :: fst (reply_tail utf8_encode self body args kwargs)
             /\ called (fst r) = called self ++ [(method, args, kwargs)]
             /\ logged (fst r) = logged self)).
Proof.
  cbv zeta.
  destruct msg_list as [| ident [| msg_id [| method [| pargs [| pkwargs rest]]]]].
  - end_raises.
  - end_raises.
  - end_raises.
  - end_raises.
  - unfold _handle_request, index, set_ident, set_msg_id, _deserialize. run_monad.
    destruct (_deserializer (base self) pargs); run_monad; end_raises.
  - destruct (_deserializer (base self) pargs) as [args | e] eqn:Hargs.
    + destruct (_deserializer (base self) pkwargs) as [kwargs | e] eqn:Hkwargs.
      * destruct (getattr (receiving ident msg_id self) method)
          as [[[] body | |] |] eqn:Hget;
          [rewrite (handle_request_resolved _ _ _ _ _ _ _ _ _ _ Hargs Hkwargs Hget)
          | rewrite (handle_request_dropped _ _ _ _ _ _ _ _ _ Hargs Hkwargs)
              by (intros ?; rewrite Hget; discriminate) ..];
          (split; [reflexivity | split; [reflexivity |]]).
        -- right; right. exists ident, msg_id, method, args, kwargs, body.
           repeat split; try reflexivity. exact Hget.
        -- right; left. exists method. repeat split; reflexivity.
        -- right; left. exists method. repeat split; reflexivity.
        -- right; left. exists method. repeat split; reflexivity.
        -- right; left. exists method. repeat split; reflexivity.
      * unfold _handle_request, index, set_ident, set_msg_id, _deserialize. run_monad.
        rewrite Hargs. run_monad. rewrite Hkwargs. run_monad.
        end_raises.
    + unfold _handle_request, index, set_ident, set_msg_id, _deserialize. run_monad.
      rewrite Hargs. run_monad.
      end_raises.
Qed.

End DispatcherCases.

Section DispatcherProperties.

Import Service.

Variable utf8_encode : unicode -> string.

(** The frames after the identity and the call-id: "SUCCESS" and a blob,
    or "FAILURE" and three texts, the last frame alone ending the message;
    or "FAILURE" and at most two texts, none ending the message, when a
    conversion raises. *)
Lemma reply_tail_shape (self : RPCService) (body : pyobj -> pyobj -> result pyobj)
    (args kwargs : pyobj) (ident msg_id : string) :
  let t := reply_tail utf8_encode self body args kwargs in
  (snd t = Returns tt
   /\ exists reply,
        multiparts ((ident, SNDMORE) :: (msg_id, SNDMORE) :: fst t) = [reply]
        /\ reply !! 0 = Some ident
        /\ reply !! 1 = Some msg_id
        /\ ((reply !! 2 = Some "SUCCESS" /\ length reply = 4)
            \/ (reply !! 2 = Some "FAILURE" /\ length reply = 6)))
  \/ (exists raised more,
        snd t = Raises raised
        /\ fst t = ("FAILURE", SNDMORE) :: more
        /\ length more <= 2
        /\ multiparts ((ident, SNDMORE) :: (msg_id, SNDMORE) :: fst t) = []).
Proof.
  cbv zeta. unfold reply_tail.
  assert (Hfailure : forall e,
             (snd (failure_tail utf8_encode e) = Returns tt
              /\ exists reply,
                   multiparts ((ident, SNDMORE) :: (msg_id, SNDMORE)
                                 :: fst (failure_tail utf8_encode e)) = [reply]
                   /\ reply !! 0 = Some ident
                   /\ reply !! 1 = Some msg_id
                   /\ ((reply !! 2 = Some "SUCCESS" /\ length reply = 4)
                       \/ (reply !! 2 = Some "FAILURE" /\ length reply = 6)))
             \/ (exists raised more,
                   snd (failure_tail utf8_encode e) = Raises raised
                   /\ fst (failure_tail utf8_encode e) = ("FAILURE", SNDMORE) :: more
                   /\ length more <= 2
                   /\ multiparts ((ident, SNDMORE) :: (msg_id, SNDMORE)
                                    :: fst (failure_tail utf8_encode e)) = [])).
  { intros [[ename | raised] [evalue | raised'] [tb | raised'']];
      unfold failure_tail; simpl;
      first [ left; split; [reflexivity |];
              eexists; split; [reflexivity |]; simpl; auto
            | right; eexists _, _; split; [reflexivity |];
              split; [reflexivity |]; split; [simpl; lia | reflexivity] ]. }
  destruct (body args kwargs) as [r | e]; [| apply Hfailure].
  destruct (_serializer (base self) r) as [presult | e]; [| apply Hfailure].
  left. split; [reflexivity |].
  eexists; split; [reflexivity |]; simpl; auto.
Qed.

(** X1. Whatever the request, [_handle_request] sends nothing, or exactly
    one complete multipart message, or the start of a FAILURE message that
    it leaves open. The complete message starts with the first two frames
    of the request and continues with "SUCCESS" (four frames in all) or
    "FAILURE" (six frames), and the handler then returns normally. The open
    one is the first two frames of the request, "FAILURE" and at most two
    texts, and the handler then raises what the conversion of the next text
    raised. *)
Theorem handle_request_at_most_one_reply (self : RPCService) (msg_list : list string) :
  let r := _handle_request utf8_encode msg_list self in
  stream (fst r) = stream self
  \/ (exists w reply,
        stream (fst r) = stream self ++ w
        /\ multiparts w = [reply]
        /\ snd r = Returns tt
        /\ reply !! 0 = msg_list !! 0
        /\ reply !! 1 = msg_list !! 1
        /\ ((reply !! 2 = Some "SUCCESS" /\ length reply = 4)
            \/ (reply !! 2 = Some "FAILURE" /\ length reply = 6)))
  \/ (exists ident msg_id more raised,
        msg_list !! 0 = Some ident
        /\ msg_list !! 1 = Some msg_id
        /\ stream (fst r)
           = stream self ++ (ident, SNDMORE) :: (msg_id, SNDMORE)
                              :: ("FAILURE", SNDMORE) :: more
        /\ length more <= 2
        /\ multiparts ((ident, SNDMORE) :: (msg_id, SNDMORE)
                         :: ("FAILURE", SNDMORE) :: more) = []
        /\ snd r = Raises raised).
Proof.
  intros r. subst r.
  destruct (handle_request_end utf8_encode self msg_list)
    as (_ & _ & [(e & _ & Hs & _) | [(m & _ & _ & Hs & _) | Hreplied]]);
    [left; exact Hs | left; exact Hs |].
  destruct Hreplied
    as (ident & msg_id & method & args & kwargs & body
        & H0 & H1 & _ & _ & Hret & Hs & _).
  destruct (reply_tail_shape self body args kwargs ident msg_id)
    as [(Hok & reply & Hm & Hr0 & Hr1 & Hshape)
       | (raised & more & Hraised & Htail & Hlen & Hm)].
  - right; left. eexists _, reply.
    split; [exact Hs |]. split; [exact Hm |].
    split; [rewrite Hret; exact Hok |].
    rewrite H0, H1. auto.
  - right; right. exists ident, msg_id, more, raised.
    rewrite Htail in Hs, Hm.
    split; [exact H0 |]. split; [exact H1 |]. split; [exact Hs |].
    split; [exact Hlen |]. split; [exact Hm |].
    rewrite Hret. exact Hraised.
Qed.

(** X2. A request of fewer than five frames raises (IndexError when it has
    fewer than four frames); nothing is sent, called or logged. *)
Theorem handle_request_short (self : RPCService) (msg_list : list string) :
  length msg_list < 5 ->
  let r := _handle_request utf8_encode msg_list self in
  (exists e, snd r = Raises e)
  /\ (length msg_list < 4 -> snd r = Raises (IndexError "list index out of range"))
  /\ stream (fst r) = stream self
  /\ called (fst r) = called self
  /\ logged (fst r) = logged self.
Proof.
  intros Hlen r. subst r.
  destruct msg_list as [| ident [| msg_id [| method [| pargs [| pkwargs rest]]]]];
    simpl in Hlen; try lia;
    unfold _handle_request, index, set_ident, set_msg_id, _deserialize; run_monad;
    try (destruct (_deserializer (base self) pargs); run_monad);
    (split; [eexists; reflexivity |]);
    (split; [intros; try reflexivity; lia |]);
    repeat split.
Qed.

(** X3. [_handle_request] leaves the codec and the methods of the service
    as they are, and sends frames exactly when it has called a method:
    either nothing was sent and nothing called, or one method was called
    and frames were sent. *)
Theorem handle_request_reply_iff_called (self : RPCService) (msg_list : list string) :
  let r := _handle_request utf8_encode msg_list self in
  base (fst r) = base self
  /\ methods (fst r) = methods self
  /\ ((stream (fst r) = stream self /\ called (fst r) = called self)
      \/ (exists c, called (fst r) = called self ++ [c]
                     /\ length (stream self) < length (stream (fst r)))).
Proof.
  intros r. subst r.
  destruct (handle_request_end utf8_encode self msg_list)
    as (Hb & Hm & [(e & _ & Hs & Hc & _) | [(m & _ & _ & Hs & Hc & _) | Hreplied]]);
    (split; [exact Hb | split; [exact Hm |]]);
    [left; split; assumption | left; split; assumption |].
  destruct Hreplied
    as (ident & msg_id & method & args & kwargs & body
        & _ & _ & _ & _ & _ & Hs & Hc & _).
  right. eexists. split; [exact Hc |].
  rewrite Hs, length_app. simpl. lia.
Qed.

(** After lines 157-158, the instance dictionary has these names. *)
Lemma instance_attributes_receiving (ident msg_id : string) (self : RPCService) :
  instance_attributes (receiving ident msg_id self)
  = RPCBase_instance_attributes ++ ["ident"; "msg_id"].
Proof. reflexivity. Qed.

(** X4. A method whose name is that of an instance attribute the class sets
    itself (socket, stream, urls, ident, msg_id) cannot be reached by a
    request, even when [rpc_method] marks it: [getattr] finds the instance
    attribute, and the request is logged as unknown and dropped. *)
Theorem handle_request_shadowed_method (self : RPCService)
    (ident msg_id method pargs pkwargs : string) (rest : list string)
    (args kwargs : pyobj) :
  method ∈ ["socket"; "stream"; "urls"; "ident"; "msg_id"] ->
  _deserializer (base self) pargs = Ok args ->
  _deserializer (base self) pkwargs = Ok kwargs ->
  exists self',
    _handle_request utf8_encode
      (ident :: msg_id :: method :: pargs :: pkwargs :: rest) self
    = (self', Returns tt)
    /\ logged self' = logged self ++ ["Unknown RPC method: " +:+ method]
    /\ stream self' = stream self
    /\ called self' = called self.
Proof.
  intros Hin Hargs Hkwargs.
  rewrite (handle_request_dropped utf8_encode _ _ _ _ _ _ _ _ _ Hargs Hkwargs).
  - eexists; split; [reflexivity | repeat split].
  - intros body. unfold getattr. rewrite instance_attributes_receiving.
    rewrite bool_decide_eq_true_2; [discriminate |].
    repeat (apply elem_of_cons in Hin as [-> | Hin]);
      [apply (bool_decide_unpack _); vm_compute; exact I .. |].
    apply elem_of_nil in Hin. destruct Hin.
Qed.

(** X5. The methods the service inherits (bind, connect, reset,
    _handle_request, _send_error, ...) are not callable by a request when
    the service class does not define that name itself. *)
Theorem handle_request_inherited_method (self : RPCService)
    (ident msg_id method pargs pkwargs : string) (rest : list string)
    (args kwargs : pyobj) :
  method ∈ class_attributes ->
  methods self !! method = None ->
  _deserializer (base self) pargs = Ok args ->
  _deserializer (base self) pkwargs = Ok kwargs ->
  exists self',
    _handle_request utf8_encode
      (ident :: msg_id :: method :: pargs :: pkwargs :: rest) self
    = (self', Returns tt)
    /\ logged self' = logged self ++ ["Unknown RPC method: " +:+ method]
    /\ stream self' = stream self
    /\ called self' = called self.
Proof.
  intros Hin Hnone Hargs Hkwargs.
  rewrite (handle_request_dropped utf8_encode _ _ _ _ _ _ _ _ _ Hargs Hkwargs).
  - eexists; split; [reflexivity | repeat split].
  - intros body. unfold getattr. case_bool_decide; [discriminate |].
    simpl. rewrite Hnone. rewrite bool_decide_eq_true_2 by exact Hin. discriminate.
Qed.

(** X6. A function of the service class decorated with [rpc_method],
    under a name that is no instance attribute, is called exactly once by a
    request naming it, with the deserialized args and kwargs, whatever its
    flag was before the decoration; the handler then sends, to the identity
    and the call-id of the request, the frames of the reply to that call
    (SUCCESS; or FAILURE, as far as the texts of the exception convert), and
    ends as that sending does. *)
Theorem handle_request_decorated_method (self : RPCService)
    (ident msg_id method pargs pkwargs : string) (rest : list string)
    (args kwargs : pyobj) (flag : bool) (body : pyobj -> pyobj -> result pyobj) :
  methods self !! method = Some (rpc_method (UserMethod flag body)) ->
  method ∉ RPCBase_instance_attributes ++ ["ident"; "msg_id"] ->
  _deserializer (base self) pargs = Ok args ->
  _deserializer (base self) pkwargs = Ok kwargs ->
  exists self',
    _handle_request utf8_encode
      (ident :: msg_id :: method :: pargs :: pkwargs :: rest) self
    = (self', snd (reply_tail utf8_encode self body args kwargs))
    /\ called self' = called self ++ [(method, args, kwargs)]
    /\ stream self'
       = stream self ++ (ident, SNDMORE) :: (msg_id, SNDMORE)
                          :: fst (reply_tail utf8_encode self body args kwargs)
    /\ logged self' = logged self.
Proof.
  intros Hmethod Hnotin Hargs Hkwargs.
  rewrite (handle_request_resolved utf8_encode _ _ _ _ _ _ _ _ _ body Hargs Hkwargs).
  - eexists; split; [reflexivity | repeat split].
  - unfold getattr. rewrite instance_attributes_receiving.
    rewrite bool_decide_eq_false_2 by exact Hnotin.
    simpl. rewrite Hmethod. reflexivity.
Qed.

End DispatcherProperties.

(** ** RPCBase: the urls *)

(** X7. [bind] and [connect] record their urls in call order, duplicates
    included, after those already there; [reset] forgets the urls recorded
    before it; none of them changes the serializer pair. *)
Theorem RPCBase_urls_in_call_order (self : RPCBase) (ops : list endpoint) :
  urls (fold_left RPCBase_attach ops self) = urls self ++ map endpoint_url ops
  /\ endpoints (fold_left RPCBase_attach ops self) = endpoints self ++ ops
  /\ urls (fold_left RPCBase_attach ops (RPCBase_reset self)) = map endpoint_url ops
  /\ endpoints (fold_left RPCBase_attach ops (RPCBase_reset self)) = ops
  /\ _serializer (fold_left RPCBase_attach ops (RPCBase_reset self)) = _serializer self
  /\ _deserializer (fold_left RPCBase_attach ops (RPCBase_reset self))
     = _deserializer self.
Proof.
  assert (Hfold : forall ops self,
             urls (fold_left RPCBase_attach ops self) = urls self ++ map endpoint_url ops
             /\ endpoints (fold_left RPCBase_attach ops self) = endpoints self ++ ops
             /\ _serializer (fold_left RPCBase_attach ops self) = _serializer self
             /\ _deserializer (fold_left RPCBase_attach ops self) = _deserializer self).
  { clear. induction ops as [| e ops IH]; intros self; simpl.
    - rewrite !app_nil_r. repeat split.
    - destruct (IH (RPCBase_attach self e)) as (Hu & He & Hs & Hd).
      rewrite Hu, He, Hs, Hd.
      destruct e; simpl; rewrite <- !app_assoc; repeat split. }
  destruct (Hfold ops self) as (Hu & He & _ & _).
  destruct (Hfold ops (RPCBase_reset self)) as (Hu' & He' & Hs' & Hd').
  repeat split; assumption.
Qed.

(** ** The asynchronous proxy: registering and resolving *)

Section AsyncProxyProperties.

Import AsyncProxy.

Variable utf8_decode : string -> option unicode.

(** A reply whose call-id is registered and whose payload decodes: the
    handler ends as the callback does. *)
Lemma handle_reply_outcome (self : AsyncRPCServiceProxy)
    (msg_id status : string) (payload : list string) (cb : callback) (result : reply) :
  _callbacks self !! msg_id = Some cb ->
  snd (reply_result utf8_decode (msg_id :: status :: payload) status self)
  = Returns (Some result) ->
  _handle_reply utf8_decode (msg_id :: status :: payload) self
  = (mkAsyncRPCServiceProxy (base self) (stream self) (_callbacks self)
       (called self ++ [(msg_id, result)]),
     callback_outcome (cb result)).
Proof.
  intros Hcb Hresult.
  rewrite handle_reply_run, Hresult, Hcb.
  unfold invoke, local, log_error, value_getattr, callback_outcome. run_monad.
  destruct (cb result) as [[] | e]; reflexivity.
Qed.

(** X8. When both serializations succeed, [call] returns, hands the
    stream one request, and leaves [callback] in the ledger under the new
    call-id, in place of whatever was registered under that id; the other
    entries stay, and no callback is invoked. *)
Theorem async_call_registers (self : AsyncRPCServiceProxy) (uuid4 method : string)
    (cb : callback) (args : list pyobj) (kwargs : list (string * pyobj))
    (pargs pkwargs : string) :
  _serializer (base self) (PyTuple args) = Ok pargs ->
  _serializer (base self) (PyDict kwargs) = Ok pkwargs ->
  let r := call uuid4 method cb args kwargs self in
  snd r = Returns tt
  /\ _callbacks (fst r) !! uuid4 = Some cb
  /\ (forall other, other <> uuid4 ->
        _callbacks (fst r) !! other = _callbacks self !! other)
  /\ multiparts (drop (length (stream self)) (stream (fst r)))
     = [[uuid4; method; pargs; pkwargs]]
  /\ called (fst r) = called self.
Proof.
  intros Hargs Hkwargs r. subst r.
  rewrite (async_call_sent _ _ _ _ _ _ _ _ Hargs Hkwargs). simpl.
  split; [reflexivity |].
  split; [apply lookup_insert_eq |].
  split; [intros other Hne; apply lookup_insert_ne; congruence |].
  split; [| reflexivity].
  rewrite drop_app_length. reflexivity.
Qed.

(** X9. When the serializer refuses the arguments, or after them the
    keyword arguments, [call] raises that exception before the first
    [send]: no frame was handed to the stream and no callback registered. *)
Theorem async_call_serializer_error (self : AsyncRPCServiceProxy) (uuid4 method : string)
    (cb : callback) (args : list pyobj) (kwargs : list (string * pyobj))
    (e : exc_info) :
  (_serializer (base self) (PyTuple args) = Exc e
   \/ exists pargs, _serializer (base self) (PyTuple args) = Ok pargs
                    /\ _serializer (base self) (PyDict kwargs) = Exc e) ->
  call uuid4 method cb args kwargs self = (self, Raises (Foreign e)).
Proof.
  intros Hfail. unfold call, _serialize. run_monad.
  destruct Hfail as [Hargs | (pargs & Hargs & Hkwargs)]; rewrite Hargs; run_monad;
    [| rewrite Hkwargs; run_monad]; reflexivity.
Qed.

(** X10. Whatever arrives, [_handle_reply] sends nothing and leaves the
    ledger as it is; it invokes at most one callback, the one registered
    under the first frame of the message. *)
Theorem handle_reply_frame (self : AsyncRPCServiceProxy) (msg_list : list string) :
  let r := _handle_reply utf8_decode msg_list self in
  base (fst r) = base self
  /\ stream (fst r) = stream self
  /\ _callbacks (fst r) = _callbacks self
  /\ (called (fst r) = called self
      \/ exists msg_id cb arg,
           msg_list !! 0 = Some msg_id
           /\ _callbacks self !! msg_id = Some cb
           /\ called (fst r) = called self ++ [(msg_id, arg)]).
Proof.
  intros r. subst r.
  destruct msg_list as [| msg_id [| status payload]];
    try (unfold _handle_reply, index; run_monad; repeat split; left; reflexivity).
  rewrite handle_reply_run.
  destruct (snd (reply_result utf8_decode (msg_id :: status :: payload) status self))
    as [[result |] | e |] eqn:Hresult;
    try (simpl; repeat split; left; reflexivity);
    destruct (_callbacks self !! msg_id) as [cb |] eqn:Hcb;
    try (simpl; repeat split; left; reflexivity).
  unfold invoke, local, log_error, value_getattr. run_monad.
  destruct (cb result); simpl;
    (split; [reflexivity | split; [reflexivity | split; [reflexivity |]]]);
    right; exists msg_id, cb, result; repeat split; assumption.
Qed.

(** X11. A FAILURE reply whose three texts decode, for a registered
    call-id: the callback is invoked once with a RemoteRPCError made of the
    name, the message and the traceback of the reply (frames 2, 3 and 4);
    the error is passed to the callback, not raised. *)
Theorem handle_reply_failure (self : AsyncRPCServiceProxy)
    (msg_id frame2 frame3 frame4 : string) (rest : list string) (cb : callback)
    (ename evalue tb : unicode) :
  _callbacks self !! msg_id = Some cb ->
  utf8_decode frame2 = Some ename ->
  utf8_decode frame3 = Some evalue ->
  utf8_decode frame4 = Some tb ->
  let err := Failure (RemoteRPCError__init__ ename evalue tb) in
  let r := _handle_reply utf8_decode
             (msg_id :: "FAILURE" :: frame2 :: frame3 :: frame4 :: rest) self in
  called (fst r) = called self ++ [(msg_id, err)]
  /\ snd r = callback_outcome (cb err).
Proof.
  intros Hcb H2 H3 H4 err r. subst r err.
  rewrite (handle_reply_outcome self msg_id "FAILURE" _ cb
             (Failure (RemoteRPCError__init__ ename evalue tb)) Hcb).
  - split; reflexivity.
  - unfold reply_result, index, decode. run_monad.
    rewrite H2. run_monad. rewrite H3. run_monad. rewrite H4. reflexivity.
Qed.

(** X12. [call] and then the SUCCESS reply to it: the callback given to
    [call] is invoked once, with the deserialized result, and the handler
    ends as that callback does. *)
Theorem async_call_then_reply (self : AsyncRPCServiceProxy) (uuid4 method : string)
    (cb : callback) (args : list pyobj) (kwargs : list (string * pyobj))
    (pargs pkwargs blob : string) (rest : list string) (v : pyobj) :
  _serializer (base self) (PyTuple args) = Ok pargs ->
  _serializer (base self) (PyDict kwargs) = Ok pkwargs ->
  _deserializer (base self) blob = Ok v ->
  let self1 := fst (call uuid4 method cb args kwargs self) in
  let r := _handle_reply utf8_decode (uuid4 :: "SUCCESS" :: blob :: rest) self1 in
  called (fst r) = called self ++ [(uuid4, Value v)]
  /\ snd r = callback_outcome (cb (Value v)).
Proof.
  intros Hargs Hkwargs Hblob self1 r. subst r self1.
  rewrite (async_call_sent _ _ _ _ _ _ _ _ Hargs Hkwargs). simpl.
  rewrite (handle_reply_outcome _ uuid4 "SUCCESS" _ cb (Value v)).
  - split; reflexivity.
  - simpl. apply lookup_insert_eq.
  - unfold reply_result, index, _deserialize. run_monad.
    rewrite Hblob. reflexivity.
Qed.

(** X13. Two calls in flight under different call-ids, answered in the
    reverse order: each reply invokes the callback of its own call with its
    own result. *)
Theorem async_replies_out_of_order (self : AsyncRPCServiceProxy)
    (id1 id2 method1 method2 : string) (cb1 cb2 : callback)
    (args1 args2 : list pyobj) (kwargs1 kwargs2 : list (string * pyobj))
    (pargs1 pkwargs1 pargs2 pkwargs2 blob1 blob2 : string) (v1 v2 : pyobj) :
  id1 <> id2 ->
  _serializer (base self) (PyTuple args1) = Ok pargs1 ->
  _serializer (base self) (PyDict kwargs1) = Ok pkwargs1 ->
  _serializer (base self) (PyTuple args2) = Ok pargs2 ->
  _serializer (base self) (PyDict kwargs2) = Ok pkwargs2 ->
  _deserializer (base self) blob1 = Ok v1 ->
  _deserializer (base self) blob2 = Ok v2 ->
  let self1 := fst (call id1 method1 cb1 args1 kwargs1 self) in
  let self2 := fst (call id2 method2 cb2 args2 kwargs2 self1) in
  let r2 := _handle_reply utf8_decode [id2; "SUCCESS"; blob2] self2 in
  let r1 := _handle_reply utf8_decode [id1; "SUCCESS"; blob1] (fst r2) in
  snd r2 = callback_outcome (cb2 (Value v2))
  /\ snd r1 = callback_outcome (cb1 (Value v1))
  /\ called (fst r1) = called self ++ [(id2, Value v2); (id1, Value v1)].
Proof.
  intros Hne Ha1 Hk1 Ha2 Hk2 Hb1 Hb2 self1 self2 r2 r1. subst r1 r2 self2 self1.
  rewrite (async_call_sent _ _ _ _ _ _ _ _ Ha1 Hk1). simpl.
  erewrite (async_call_sent _ id2) by (simpl; eassumption). simpl.
  rewrite (handle_reply_outcome _ id2 "SUCCESS" _ cb2 (Value v2)); simpl.
  - rewrite (handle_reply_outcome _ id1 "SUCCESS" _ cb1 (Value v1)); simpl.
    + rewrite <- app_assoc. repeat split.
    + rewrite lookup_insert_ne by congruence. apply lookup_insert_eq.
    + unfold reply_result, index, _deserialize. run_monad.
      rewrite Hb1. reflexivity.
  - apply lookup_insert_eq.
  - unfold reply_result, index, _deserialize. run_monad.
    rewrite Hb2. reflexivity.
Qed.

(** X14. [reset] does not clear the ledger: a reply that arrives after
    [reset] for a call made before it still invokes the callback of that
    call, although the urls and the stream start again. *)
Theorem async_reset_keeps_callbacks (self : AsyncRPCServiceProxy) (uuid4 method : string)
    (cb : callback) (args : list pyobj) (kwargs : list (string * pyobj))
    (pargs pkwargs blob : string) (rest : list string) (v : pyobj) :
  _serializer (base self) (PyTuple args) = Ok pargs ->
  _serializer (base self) (PyDict kwargs) = Ok pkwargs ->
  _deserializer (base self) blob = Ok v ->
  let self1 := reset (fst (call uuid4 method cb args kwargs self)) in
  let r := _handle_reply utf8_decode (uuid4 :: "SUCCESS" :: blob :: rest) self1 in
  urls (base self1) = []
  /\ stream self1 = []
  /\ _callbacks self1 !! uuid4 = Some cb
  /\ called (fst r) = called self ++ [(uuid4, Value v)]
  /\ snd r = callback_outcome (cb (Value v)).
Proof.
  intros Hargs Hkwargs Hblob self1 r. subst r self1.
  rewrite (async_call_sent _ _ _ _ _ _ _ _ Hargs Hkwargs). simpl.
  rewrite (handle_reply_outcome _ uuid4 "SUCCESS" _ cb (Value v)).
  - simpl. repeat split. apply lookup_insert_eq.
  - simpl. apply lookup_insert_eq.
  - unfold reply_result, index, _deserialize, reset. run_monad.
    rewrite Hblob. reflexivity.
Qed.

(** X15. A reply for a registered call-id whose status is neither SUCCESS
    nor FAILURE: the local [result] was never assigned, the callback is not
    invoked, and the handler ends with the AttributeError of its [except]
    clause. *)
Theorem handle_reply_unknown_status (self : AsyncRPCServiceProxy)
    (msg_id status : string) (payload : list string) (cb : callback) :
  _callbacks self !! msg_id = Some cb ->
  status <> "SUCCESS" ->
  status <> "FAILURE" ->
  _handle_reply utf8_decode (msg_id :: status :: payload) self
  = (self, Raises (AttributeError "'AsyncRemoteMethod' object has no attribute 'error'")).
Proof.
  intros Hcb Hs Hf.
  rewrite handle_reply_run.
  unfold reply_result. rewrite !bool_decide_eq_false_2 by assumption.
  simpl. rewrite Hcb.
  unfold invoke, local, log_error, value_getattr. run_monad. reflexivity.
Qed.

(** X16. A message of fewer than two frames raises IndexError and changes
    nothing. *)
Theorem handle_reply_short (self : AsyncRPCServiceProxy) (msg_list : list string) :
  length msg_list < 2 ->
  _handle_reply utf8_decode msg_list self
  = (self, Raises (IndexError "list index out of range")).
Proof.
  intros Hlen.
  destruct msg_list as [| msg_id [| status payload]]; simpl in Hlen; try lia;
    unfold _handle_reply, index; run_monad; reflexivity.
Qed.

End AsyncProxyProperties.

(** ** The synchronous proxy: what [call] makes of the reply *)

Section SyncProxyProperties.

Import SyncProxy.

Variable utf8_decode : string -> option unicode.

(** [call] on a socket with nothing waiting, whose peer answers the
    request with [reply] first: [call] reads [reply]. *)
Lemma call_reads_reply (self : RPCServiceProxy) (uuid4 method : string)
    (args : list pyobj) (kwargs : list (string * pyobj)) (pargs pkwargs : string)
    (reply : list string) (more : list (list string)) :
  _serializer (base self) (PyTuple args) = Ok pargs ->
  _serializer (base self) (PyDict kwargs) = Ok pkwargs ->
  inbox (socket self) = [] ->
  peer (socket self)
    (List.last (multiparts (sent (socket self)
                              ++ [(uuid4, SNDMORE); (method, SNDMORE);
                                  (pargs, SNDMORE); (pkwargs, NOFLAGS)])) [])
  = reply :: more ->
  call utf8_decode uuid4 method args kwargs self
  = read_reply utf8_decode reply
      (mkRPCServiceProxy (base self)
         (mkDealerSocket (sent (socket self)
                            ++ [(uuid4, SNDMORE); (method, SNDMORE);
                                (pargs, SNDMORE); (pkwargs, NOFLAGS)])
            more (peer (socket self)))).
Proof.
  intros Hargs Hkwargs Hinbox Hpeer.
  rewrite (call_run utf8_decode _ _ _ _ _ _ _ Hargs Hkwargs).
  unfold after_request, recv_multipart. run_monad.
  rewrite Hinbox, Hpeer. reflexivity.
Qed.

(** X17. The synchronous proxy does not compare the call-id of the reply
    with the one it sent: a SUCCESS reply under any call-id is taken as the
    answer, and [call] returns its deserialized blob. *)
Theorem sync_call_ignores_reply_id (self : RPCServiceProxy) (uuid4 method : string)
    (args : list pyobj) (kwargs : list (string * pyobj)) (pargs pkwargs : string)
    (reply_id blob : string) (rest : list string) (v : pyobj) :
  _serializer (base self) (PyTuple args) = Ok pargs ->
  _serializer (base self) (PyDict kwargs) = Ok pkwargs ->
  inbox (socket self) = [] ->
  (forall request, peer (socket self) request = [reply_id :: "SUCCESS" :: blob :: rest]) ->
  _deserializer (base self) blob = Ok v ->
  snd (call utf8_decode uuid4 method args kwargs self) = Returns v.
Proof.
  intros Hargs Hkwargs Hinbox Hpeer Hblob.
  rewrite (call_reads_reply _ _ _ _ _ _ _ _ _ Hargs Hkwargs Hinbox (Hpeer _)).
  unfold read_reply, index, _deserialize. run_monad.
  rewrite Hblob. reflexivity.
Qed.

(** X18. A reply whose status frame is neither SUCCESS nor FAILURE makes
    [call] return None, without an error. *)
Theorem sync_call_unknown_status (self : RPCServiceProxy) (uuid4 method : string)
    (args : list pyobj) (kwargs : list (string * pyobj)) (pargs pkwargs : string)
    (reply_id status : string) (rest : list string) :
  _serializer (base self) (PyTuple args) = Ok pargs ->
  _serializer (base self) (PyDict kwargs) = Ok pkwargs ->
  inbox (socket self) = [] ->
  (forall request, peer (socket self) request = [reply_id :: status :: rest]) ->
  status <> "SUCCESS" ->
  status <> "FAILURE" ->
  snd (call utf8_decode uuid4 method args kwargs self) = Returns PyNone.
Proof.
  intros Hargs Hkwargs Hinbox Hpeer Hs Hf.
  rewrite (call_reads_reply _ _ _ _ _ _ _ _ _ Hargs Hkwargs Hinbox (Hpeer _)).
  unfold read_reply, index. run_monad.
  rewrite !bool_decide_eq_false_2 by assumption. reflexivity.
Qed.

(** X19. When the serializer refuses the arguments, or after them the
    keyword arguments, [call] raises that exception before the first
    [send]: the socket has seen nothing. *)
Theorem sync_call_serializer_error (self : RPCServiceProxy) (uuid4 method : string)
    (args : list pyobj) (kwargs : list (string * pyobj)) (e : exc_info) :
  (_serializer (base self) (PyTuple args) = Exc e
   \/ exists pargs, _serializer (base self) (PyTuple args) = Ok pargs
                    /\ _serializer (base self) (PyDict kwargs) = Exc e) ->
  call utf8_decode uuid4 method args kwargs self = (self, Raises (Foreign e)).
Proof.
  intros Hfail. unfold call, _serialize. run_monad.
  destruct Hfail as [Hargs | (pargs & Hargs & Hkwargs)]; rewrite Hargs; run_monad;
    [| rewrite Hkwargs; run_monad]; reflexivity.
Qed.

End SyncProxyProperties.

(** ** Proxies and service together *)

Section EndToEnd.

Variable utf8_encode : unicode -> string.
Variable utf8_decode : string -> option unicode.

(** What the service sends back to [identity] for one request. *)
Lemma served_by_resolved (svc : Service.RPCService) (identity uuid4 method : string)
    (pargs pkwargs : string) (a k : pyobj) (body : pyobj -> pyobj -> result pyobj) :
  _deserializer (Service.base svc) pargs = Ok a ->
  _deserializer (Service.base svc) pkwargs = Ok k ->
  Service.getattr (Service.receiving identity uuid4 svc) method
  = Some (Service.UserMethod true body) ->
  served_by utf8_encode svc identity [uuid4; method; pargs; pkwargs]
  = omap (router_send identity)
         (multiparts ((identity, SNDMORE) :: (uuid4, SNDMORE)
                        :: fst (Service.reply_tail utf8_encode svc body a k))).
Proof.
  intros Ha Hk Hget.
  unfold served_by, router_recv.
  rewrite (handle_request_resolved utf8_encode svc identity uuid4 method pargs pkwargs
             [] a k body Ha Hk Hget).
  simpl. rewrite drop_app_length. reflexivity.
Qed.

Lemma served_by_unknown (svc : Service.RPCService) (identity uuid4 method : string)
    (pargs pkwargs : string) :
  (Service.getattr (Service.receiving identity uuid4 svc) method = None
   \/ exists h, Service.getattr (Service.receiving identity uuid4 svc) method = Some h
                /\ Service.is_rpc_method h = false) ->
  served_by utf8_encode svc identity [uuid4; method; pargs; pkwargs] = [].
Proof.
  intros Hget.
  unfold served_by, router_recv.
  destruct (handle_request_unknown_cases utf8_encode svc identity uuid4 method
              [pargs; pkwargs] Hget) as (Hstream & _).
  rewrite Hstream, drop_all. reflexivity.
Qed.

(** X20. A synchronous call of a method the service does not expose never
    returns: the service sends no reply, and [call] stays in
    [recv_multipart]. *)
Theorem sync_call_unknown_method_blocks (svc : Service.RPCService)
    (serializer : pyobj -> result string) (deserializer : string -> result pyobj)
    (identity uuid4 url method : string)
    (args : list pyobj) (kwargs : list (string * pyobj)) (pargs pkwargs : string) :
  serializer (PyTuple args) = Ok pargs ->
  serializer (PyDict kwargs) = Ok pkwargs ->
  (Service.getattr (Service.receiving identity uuid4 svc) method = None
   \/ exists h, Service.getattr (Service.receiving identity uuid4 svc) method = Some h
                /\ Service.is_rpc_method h = false) ->
  let proxy := SyncProxy.connect_url url
                 (SyncProxy.RPCServiceProxy__init__ serializer deserializer
                    (served_by utf8_encode svc identity)) in
  snd (SyncProxy.call utf8_decode uuid4 method args kwargs proxy) = Blocks.
Proof.
  intros Hargs Hkwargs Hget proxy. subst proxy.
  rewrite (call_run utf8_decode _ uuid4 method args kwargs pargs pkwargs)
    by assumption.
  unfold SyncProxy.after_request, SyncProxy.recv_multipart. run_monad.
  rewrite (served_by_unknown svc identity uuid4 method pargs pkwargs Hget).
  reflexivity.
Qed.


(** X26. A synchronous call of an exposed method that raises an exception
    one of whose texts does not convert to unicode never returns: the
    service leaves its FAILURE message open and raises, no reply reaches
    the proxy, and [call] stays in [recv_multipart]. *)
Theorem sync_call_remote_failure_blocks (svc : Service.RPCService)
    (serializer : pyobj -> result string) (deserializer : string -> result pyobj)
    (identity uuid4 url method : string)
    (args : list pyobj) (kwargs : list (string * pyobj)) (pargs pkwargs : string)
    (a k : pyobj) (body : pyobj -> pyobj -> result pyobj)
    (e : exc_info) (raised : exn) :
  serializer (PyTuple args) = Ok pargs ->
  serializer (PyDict kwargs) = Ok pkwargs ->
  _deserializer (Service.base svc) pargs = Ok a ->
  _deserializer (Service.base svc) pkwargs = Ok k ->
  Service.getattr (Service.receiving identity uuid4 svc) method
  = Some (Service.UserMethod true body) ->
  body a k = Exc e ->
  (exc_name e = Unconvertible raised
   \/ exc_value e = Unconvertible raised
   \/ exc_traceback e = Unconvertible raised) ->
  let proxy := SyncProxy.connect_url url
                 (SyncProxy.RPCServiceProxy__init__ serializer deserializer
                    (served_by utf8_encode svc identity)) in
  snd (SyncProxy.call utf8_decode uuid4 method args kwargs proxy) = Blocks.
Proof.
  intros Hargs Hkwargs Ha Hk Hget Hbody Hconv proxy. subst proxy.
  rewrite (call_run utf8_decode _ uuid4 method args kwargs pargs pkwargs)
    by assumption.
  unfold SyncProxy.after_request, SyncProxy.recv_multipart. run_monad.
  rewrite (served_by_resolved svc identity uuid4 method pargs pkwargs a k body
             Ha Hk Hget).
  unfold Service.reply_tail, Service.failure_tail. rewrite Hbody.
  destruct e as [[ename | r1] [evalue | r2] [tb | r3]]; simpl in Hconv |- *;
    try reflexivity.
  destruct Hconv as [H | [H | H]]; discriminate.
Qed.



End EndToEnd.

(** ** The further properties at concrete inputs *)

Lemma handle_request_short_witness :
  snd (Service._handle_request AsciiText.encode ["peer"; "id-1"; "echo"]
         (Echo.Echo SimpleCodec.dumps SimpleCodec.loads))
  = Raises (IndexError "list index out of range").
Proof.
  destruct (handle_request_short AsciiText.encode
              (Echo.Echo SimpleCodec.dumps SimpleCodec.loads)
              ["peer"; "id-1"; "echo"]) as (_ & Hindex & _).
  - simpl. lia.
  - apply Hindex. simpl. lia.
Defined.

(** A service whose class defines an exposed method named [stream]. *)
Lemma handle_request_shadowed_method_witness :
  let svc := Service.RPCService__init__
               (<["stream" := Service.rpc_method (Service.UserMethod false Echo.echo)]> ∅)
               SimpleCodec.dumps SimpleCodec.loads in
  Service.methods svc !! "stream" = Some (Service.UserMethod true Echo.echo)
  /\ exists self',
       Service._handle_request AsciiText.encode
         ["peer"; "id-1"; "stream"; "T10S110hi"; "D0"] svc
       = (self', Returns tt)
       /\ Service.logged self' = Service.logged svc ++ ["Unknown RPC method: " +:+ "stream"]
       /\ Service.stream self' = Service.stream svc
       /\ Service.called self' = Service.called svc.
Proof.
  intros svc. split; [vm_compute; reflexivity |].
  apply (handle_request_shadowed_method AsciiText.encode svc
           "peer" "id-1" "stream" "T10S110hi" "D0" []
           (PyTuple [PyStr "hi"]) (PyDict [])).
  - apply (bool_decide_unpack _). vm_compute. exact I.
  - vm_compute. reflexivity.
  - vm_compute. reflexivity.
Defined.

Lemma handle_request_inherited_method_witness :
  exists self',
    Service._handle_request AsciiText.encode ["peer"; "id-1"; "bind"; "T0"; "D0"]
      (Echo.Echo SimpleCodec.dumps SimpleCodec.loads)
    = (self', Returns tt)
    /\ Service.logged self'
       = Service.logged (Echo.Echo SimpleCodec.dumps SimpleCodec.loads)
         ++ ["Unknown RPC method: " +:+ "bind"]
    /\ Service.stream self'
       = Service.stream (Echo.Echo SimpleCodec.dumps SimpleCodec.loads)
    /\ Service.called self'
       = Service.called (Echo.Echo SimpleCodec.dumps SimpleCodec.loads).
Proof.
  apply (handle_request_inherited_method AsciiText.encode
           (Echo.Echo SimpleCodec.dumps SimpleCodec.loads)
           "peer" "id-1" "bind" "T0" "D0" [] (PyTuple []) (PyDict [])).
  - apply (bool_decide_unpack _). vm_compute. exact I.
  - vm_compute. reflexivity.
  - vm_compute. reflexivity.
  - vm_compute. reflexivity.
Defined.

Lemma handle_request_decorated_method_witness :
  let svc := Echo.Echo SimpleCodec.dumps SimpleCodec.loads in
  exists self',
    Service._handle_request AsciiText.encode
      ["peer"; "id-1"; "echo"; "T10S110hi"; "D0"] svc
    = (self', snd (Service.reply_tail AsciiText.encode svc Echo.echo
                     (PyTuple [PyStr "hi"]) (PyDict [])))
    /\ Service.called self'
       = Service.called svc ++ [("echo", PyTuple [PyStr "hi"], PyDict [])]
    /\ Service.stream self'
       = Service.stream svc
         ++ ("peer", SNDMORE) :: ("id-1", SNDMORE)
              :: fst (Service.reply_tail AsciiText.encode svc Echo.echo
                        (PyTuple [PyStr "hi"]) (PyDict []))
    /\ Service.logged self' = Service.logged svc.
Proof.
  intros svc.
  apply (handle_request_decorated_method AsciiText.encode svc
           "peer" "id-1" "echo" "T10S110hi" "D0" []
           (PyTuple [PyStr "hi"]) (PyDict []) false Echo.echo).
  - vm_compute. reflexivity.
  - apply (bool_decide_unpack _). vm_compute. exact I.
  - vm_compute. reflexivity.
  - vm_compute. reflexivity.
Defined.

Lemma async_call_registers_witness :
  let self := AsyncProxy.AsyncRPCServiceProxy__init__
                SimpleCodec.dumps SimpleCodec.loads in
  let r := AsyncProxy.call "id-1" "echo" Echo.accept [PyStr "hi"] [] self in
  snd r = Returns tt
  /\ AsyncProxy._callbacks (fst r) !! "id-1" = Some Echo.accept
  /\ (forall other, other <> "id-1" ->
        AsyncProxy._callbacks (fst r) !! other = AsyncProxy._callbacks self !! other)
  /\ multiparts (drop (length (AsyncProxy.stream self)) (AsyncProxy.stream (fst r)))
     = [["id-1"; "echo"; "T10S110hi"; "D0"]]
  /\ AsyncProxy.called (fst r) = AsyncProxy.called self.
Proof.
  apply (async_call_registers
           (AsyncProxy.AsyncRPCServiceProxy__init__ SimpleCodec.dumps SimpleCodec.loads)
           "id-1" "echo" Echo.accept [PyStr "hi"] [] "T10S110hi" "D0").
  - vm_compute. reflexivity.
  - vm_compute. reflexivity.
Defined.

Lemma async_call_serializer_error_witness :
  let self := AsyncProxy.AsyncRPCServiceProxy__init__
                Echo.no_none_dumps SimpleCodec.loads in
  AsyncProxy.call "id-1" "echo" Echo.accept [PyNone] [] self
  = (self, Raises (Foreign (Echo.TypeError "None is not serializable"))).
Proof.
  apply (async_call_serializer_error
           (AsyncProxy.AsyncRPCServiceProxy__init__ Echo.no_none_dumps SimpleCodec.loads)
           "id-1" "echo" Echo.accept [PyNone] []
           (Echo.TypeError "None is not serializable")).
  left. vm_compute. reflexivity.
Defined.

Lemma handle_reply_failure_witness :
  let self :=
    fst (AsyncProxy.call "id-1" "fail" Echo.accept [] []
           (AsyncProxy.AsyncRPCServiceProxy__init__
              SimpleCodec.dumps SimpleCodec.loads)) in
  let err := AsyncProxy.Failure
               (RemoteRPCError__init__ (u "ValueError") (u "bad input")
                  (u "Traceback (most recent call last): ValueError")) in
  let r := AsyncProxy._handle_reply AsciiText.decode
             ["id-1"; "FAILURE"; "ValueError"; "bad input";
              "Traceback (most recent call last): ValueError"] self in
  AsyncProxy.called (fst r) = AsyncProxy.called self ++ [("id-1", err)]
  /\ snd r = AsyncProxy.callback_outcome (Echo.accept err).
Proof.
  apply (handle_reply_failure AsciiText.decode
           (fst (AsyncProxy.call "id-1" "fail" Echo.accept [] []
                   (AsyncProxy.AsyncRPCServiceProxy__init__
                      SimpleCodec.dumps SimpleCodec.loads)))
           "id-1" "ValueError" "bad input"
           "Traceback (most recent call last): ValueError" [] Echo.accept
           (u "ValueError") (u "bad input")
           (u "Traceback (most recent call last): ValueError")).
  - vm_compute. reflexivity.
  - vm_compute. reflexivity.
  - vm_compute. reflexivity.
  - vm_compute. reflexivity.
Defined.

Lemma async_call_then_reply_witness :
  let self := AsyncProxy.AsyncRPCServiceProxy__init__
                SimpleCodec.dumps SimpleCodec.loads in
  let self1 := fst (AsyncProxy.call "id-1" "echo" Echo.reject [PyStr "hi"] [] self) in
  let r := AsyncProxy._handle_reply AsciiText.decode ["id-1"; "SUCCESS"; "S110hi"] self1 in
  AsyncProxy.called (fst r) = AsyncProxy.called self ++ [("id-1", AsyncProxy.Value (PyStr "hi"))]
  /\ snd r = AsyncProxy.callback_outcome (Echo.reject (AsyncProxy.Value (PyStr "hi"))).
Proof.
  apply (async_call_then_reply AsciiText.decode
           (AsyncProxy.AsyncRPCServiceProxy__init__ SimpleCodec.dumps SimpleCodec.loads)
           "id-1" "echo" Echo.reject [PyStr "hi"] [] "T10S110hi" "D0" "S110hi" []
           (PyStr "hi")).
  - vm_compute. reflexivity.
  - vm_compute. reflexivity.
  - vm_compute. reflexivity.
Defined.

Lemma async_replies_out_of_order_witness :
  let self := AsyncProxy.AsyncRPCServiceProxy__init__
                SimpleCodec.dumps SimpleCodec.loads in
  let self1 := fst (AsyncProxy.call "id-1" "echo" Echo.accept [PyStr "a"] [] self) in
  let self2 := fst (AsyncProxy.call "id-2" "echo" Echo.reject [PyStr "b"] [] self1) in
  let r2 := AsyncProxy._handle_reply AsciiText.decode ["id-2"; "SUCCESS"; "S10b"] self2 in
  let r1 := AsyncProxy._handle_reply AsciiText.decode ["id-1"; "SUCCESS"; "S10a"] (fst r2) in
  snd r2 = AsyncProxy.callback_outcome (Echo.reject (AsyncProxy.Value (PyStr "b")))
  /\ snd r1 = AsyncProxy.callback_outcome (Echo.accept (AsyncProxy.Value (PyStr "a")))
  /\ AsyncProxy.called (fst r1)
     = AsyncProxy.called self ++ [("id-2", AsyncProxy.Value (PyStr "b"));
                                  ("id-1", AsyncProxy.Value (PyStr "a"))].
Proof.
  apply (async_replies_out_of_order AsciiText.decode
           (AsyncProxy.AsyncRPCServiceProxy__init__ SimpleCodec.dumps SimpleCodec.loads)
           "id-1" "id-2" "echo" "echo" Echo.accept Echo.reject
           [PyStr "a"] [PyStr "b"] [] [] "T10S10a" "D0" "T10S10b" "D0" "S10a" "S10b"
           (PyStr "a") (PyStr "b")).
  - discriminate.
  - vm_compute. reflexivity.
  - vm_compute. reflexivity.
  - vm_compute. reflexivity.
  - vm_compute. reflexivity.
  - vm_compute. reflexivity.
  - vm_compute. reflexivity.
Defined.

Lemma async_reset_keeps_callbacks_witness :
  let self := AsyncProxy.connect_url "tcp://127.0.0.1:5555"
                (AsyncProxy.AsyncRPCServiceProxy__init__
                   SimpleCodec.dumps SimpleCodec.loads) in
  let self1 := AsyncProxy.reset
                 (fst (AsyncProxy.call "id-1" "echo" Echo.accept [PyStr "hi"] [] self)) in
  let r := AsyncProxy._handle_reply AsciiText.decode ["id-1"; "SUCCESS"; "S110hi"] self1 in
  urls (AsyncProxy.base self1) = []
  /\ AsyncProxy.stream self1 = []
  /\ AsyncProxy._callbacks self1 !! "id-1" = Some Echo.accept
  /\ AsyncProxy.called (fst r)
     = AsyncProxy.called self ++ [("id-1", AsyncProxy.Value (PyStr "hi"))]
  /\ snd r = AsyncProxy.callback_outcome (Echo.accept (AsyncProxy.Value (PyStr "hi"))).
Proof.
  apply (async_reset_keeps_callbacks AsciiText.decode
           (AsyncProxy.connect_url "tcp://127.0.0.1:5555"
              (AsyncProxy.AsyncRPCServiceProxy__init__
                 SimpleCodec.dumps SimpleCodec.loads))
           "id-1" "echo" Echo.accept [PyStr "hi"] [] "T10S110hi" "D0" "S110hi" []
           (PyStr "hi")).
  - vm_compute. reflexivity.
  - vm_compute. reflexivity.
  - vm_compute. reflexivity.
Defined.

Lemma handle_reply_unknown_status_witness :
  let self :=
    fst (AsyncProxy.call "id-1" "echo" Echo.accept [PyStr "hi"] []
           (AsyncProxy.AsyncRPCServiceProxy__init__
              SimpleCodec.dumps SimpleCodec.loads)) in
  AsyncProxy._handle_reply AsciiText.decode ["id-1"; "PENDING"] self
  = (self, Raises (AttributeError "'AsyncRemoteMethod' object has no attribute 'error'")).
Proof.
  apply (handle_reply_unknown_status AsciiText.decode
           (fst (AsyncProxy.call "id-1" "echo" Echo.accept [PyStr "hi"] []
                   (AsyncProxy.AsyncRPCServiceProxy__init__
                      SimpleCodec.dumps SimpleCodec.loads)))
           "id-1" "PENDING" [] Echo.accept).
  - vm_compute. reflexivity.
  - discriminate.
  - discriminate.
Defined.

Lemma handle_reply_short_witness :
  let self := AsyncProxy.AsyncRPCServiceProxy__init__
                SimpleCodec.dumps SimpleCodec.loads in
  AsyncProxy._handle_reply AsciiText.decode ["id-1"] self
  = (self, Raises (IndexError "list index out of range")).
Proof.
  apply (handle_reply_short AsciiText.decode
           (AsyncProxy.AsyncRPCServiceProxy__init__ SimpleCodec.dumps SimpleCodec.loads)
           ["id-1"]).
  simpl. lia.
Defined.

Lemma sync_call_ignores_reply_id_witness :
  snd (SyncProxy.call AsciiText.decode "id-1" "echo" [PyStr "hi"] []
         (SyncProxy.RPCServiceProxy__init__ SimpleCodec.dumps SimpleCodec.loads
            (fun _ => [["id-0"; "SUCCESS"; "S10x"]])))
  = Returns (PyStr "x").
Proof.
  apply (sync_call_ignores_reply_id AsciiText.decode
           (SyncProxy.RPCServiceProxy__init__ SimpleCodec.dumps SimpleCodec.loads
              (fun _ => [["id-0"; "SUCCESS"; "S10x"]]))
           "id-1" "echo" [PyStr "hi"] [] "T10S110hi" "D0" "id-0" "S10x" [] (PyStr "x")).
  - vm_compute. reflexivity.
  - vm_compute. reflexivity.
  - reflexivity.
  - intros request. reflexivity.
  - vm_compute. reflexivity.
Defined.

Lemma sync_call_unknown_status_witness :
  snd (SyncProxy.call AsciiText.decode "id-1" "echo" [PyStr "hi"] []
         (SyncProxy.RPCServiceProxy__init__ SimpleCodec.dumps SimpleCodec.loads
            (fun _ => [["id-1"; "PENDING"]])))
  = Returns PyNone.
Proof.
  apply (sync_call_unknown_status AsciiText.decode
           (SyncProxy.RPCServiceProxy__init__ SimpleCodec.dumps SimpleCodec.loads
              (fun _ => [["id-1"; "PENDING"]]))
           "id-1" "echo" [PyStr "hi"] [] "T10S110hi" "D0" "id-1" "PENDING" []).
  - vm_compute. reflexivity.
  - vm_compute. reflexivity.
  - reflexivity.
  - intros request. reflexivity.
  - discriminate.
  - discriminate.
Defined.

Lemma sync_call_serializer_error_witness :
  let self := SyncProxy.RPCServiceProxy__init__ Echo.no_none_dumps SimpleCodec.loads
                (fun _ => []) in
  SyncProxy.call AsciiText.decode "id-1" "echo" [PyNone] [] self
  = (self, Raises (Foreign (Echo.TypeError "None is not serializable"))).
Proof.
  apply (sync_call_serializer_error AsciiText.decode
           (SyncProxy.RPCServiceProxy__init__ Echo.no_none_dumps SimpleCodec.loads
              (fun _ => []))
           "id-1" "echo" [PyNone] [] (Echo.TypeError "None is not serializable")).
  left. vm_compute. reflexivity.
Defined.

Lemma sync_call_unknown_method_blocks_witness :
  snd (SyncProxy.call AsciiText.decode "id-1" "secret" [PyStr "hi"] []
         (SyncProxy.connect_url "tcp://127.0.0.1:5555"
            (SyncProxy.RPCServiceProxy__init__ SimpleCodec.dumps SimpleCodec.loads
               (served_by AsciiText.encode
                  (Echo.Echo SimpleCodec.dumps SimpleCodec.loads) "peer"))))
  = Blocks.
Proof.
  apply (sync_call_unknown_method_blocks AsciiText.encode AsciiText.decode
           (Echo.Echo SimpleCodec.dumps SimpleCodec.loads)
           SimpleCodec.dumps SimpleCodec.loads
           "peer" "id-1" "tcp://127.0.0.1:5555" "secret"
           [PyStr "hi"] [] "T10S110hi" "D0").
  - vm_compute. reflexivity.
  - vm_compute. reflexivity.
  - right. exists (Service.UserMethod false Echo.echo).
    split; vm_compute; reflexivity.
Defined.


Lemma sync_call_remote_failure_blocks_witness :
  snd (SyncProxy.call AsciiText.decode "id-1" "cafe" [] []
         (SyncProxy.connect_url "tcp://127.0.0.1:5555"
            (SyncProxy.RPCServiceProxy__init__ SimpleCodec.dumps SimpleCodec.loads
               (served_by AsciiText.encode
                  (Echo.Cafe SimpleCodec.dumps SimpleCodec.loads) "peer"))))
  = Blocks.
Proof.
  apply (sync_call_remote_failure_blocks AsciiText.encode AsciiText.decode
           (Echo.Cafe SimpleCodec.dumps SimpleCodec.loads)
           SimpleCodec.dumps SimpleCodec.loads
           "peer" "id-1" "tcp://127.0.0.1:5555" "cafe"
           [] [] "T0" "D0" (PyTuple []) (PyDict []) Echo.cafe
           (ExcInfo (u "ValueError")
                    (Unconvertible (UnicodeDecodeError "ascii"))
                    (Unconvertible (UnicodeDecodeError "ascii")))
           (UnicodeDecodeError "ascii")).
  - vm_compute. reflexivity.
  - vm_compute. reflexivity.
  - vm_compute. reflexivity.
  - vm_compute. reflexivity.
  - vm_compute. reflexivity.
  - reflexivity.
  - right; left. reflexivity.
Defined.


